(** * gcp-tunnel-client/webapp/app.py: the setup wizard of the tunnel add-on

    A shallow embedding of the Flask application that authorises against
    Google (OAuth2 with PKCE), provisions a project and a Cloud Run service,
    and records its progress in two JSON files.

    Conventions of the embedding:
    - Python dictionaries read from and written to JSON files, the Flask
      session and flat JSON replies are [gmap string value];
    - the values this program tests, formats and stores are JSON scalars
      ([value]); request bodies, which are only built and sent, are [jvalue]
      trees; what [json()] of a response or of the request returns is a
      [document]: an object of scalars, a scalar or an array;
    - the file system, the session cookie, the HTTP calls made so far and
      the amount of randomness consumed form the [World]; the network,
      the entropy source and the process environment form the [Env];
    - a view function is a computation [M A] that either returns or raises. *)

From stdpp Require Import gmap strings list fin_maps pretty.
From Stdlib Require Import ZArith NArith Strings.Byte Strings.Ascii.

Open Scope string_scope.

(* ===================================================================== *)
(** ** Python values *)
(* ===================================================================== *)

Module Py.

(** The scalars of JSON as Python sees them after [json.loads]. *)
Inductive value : Type :=
| VNone
| VBool (b : bool)
| VInt (n : Z)
| VStr (s : string).

(** Truth value testing, as [if v:], [not v] and [v or w] use it. *)
Definition truthy (v : value) : bool :=
  match v with
  | VNone => false
  | VBool b => b
  | VInt n => negb (n =? 0)%Z
  | VStr "" => false
  | VStr _ => true
  end.

(** [v is not None]. *)
Definition is_not_None (v : value) : bool :=
  match v with VNone => false | _ => true end.

(** [str(v)], which is what an f-string substitutes for [{v}]. *)
Definition str (v : value) : string :=
  match v with
  | VNone => "None"
  | VBool true => "True"
  | VBool false => "False"
  | VInt n => pretty n
  | VStr s => s
  end.

Abbreviation dict := (gmap string value).

(** [d.get(k)] and [d.get(k, dflt)]. *)
Definition get (d : dict) (k : string) : value := default VNone (d !! k).
Definition get_or (d : dict) (k : string) (dflt : value) : value :=
  default dflt (d !! k).

(** Truth of the result of [request.args.get(k)]: a string or [None]. *)
Definition truthy_arg (a : option string) : bool :=
  match a with
  | None | Some "" => false
  | Some _ => true
  end.

(** [s.rstrip(c)] for a single character [c]. *)
Fixpoint rstrip (c : ascii) (s : string) : string :=
  match s with
  | "" => ""
  | String a s' =>
      match rstrip c s' with
      | "" => if Ascii.eqb a c then "" else String a ""
      | t => String a t
      end
  end.

(** [s.encode()]: a [string] already holds the bytes of its UTF-8 form. *)
Definition encode (s : string) : list byte := String.list_byte_of_string s.

End Py.

Export Py.

(** JSON documents that are only built and sent. *)
#[local] Unset Elimination Schemes.
Inductive jvalue : Type :=
| JNull
| JBool (b : bool)
| JNum (n : Z)
| JStr (s : string)
| JArr (items : list jvalue)
| JObj (members : list (string * jvalue)).
#[local] Set Elimination Schemes.

Definition json_of (v : value) : jvalue :=
  match v with
  | VNone => JNull
  | VBool b => JBool b
  | VInt n => JNum n
  | VStr s => JStr s
  end.

(** What [json.loads] returns for the documents this program reads: an
    object (a dictionary, its members scalars), a scalar, or an array. *)
Inductive document : Type :=
| DObject (members : dict)
| DScalar (v : value)
| DArray (items : list jvalue).

(** [type(d).__name__], as Python's error messages print it. *)
Definition type_name (d : document) : string :=
  match d with
  | DObject _ => "dict"
  | DArray _ => "list"
  | DScalar VNone => "NoneType"
  | DScalar (VBool _) => "bool"
  | DScalar (VInt _) => "int"
  | DScalar (VStr _) => "str"
  end.

Definition truthy_document (d : document) : bool :=
  match d with
  | DObject members => negb (bool_decide (members = ∅))
  | DScalar v => truthy v
  | DArray [] => false
  | DArray _ => true
  end.

(** [not t] and [t is not None] for what [get_token] returned: [None] when
    there is no file, a document otherwise (a file that holds [null] reads
    back as [None] too). *)
Definition truthy_token (t : option document) : bool :=
  match t with
  | None => false
  | Some d => truthy_document d
  end.

Definition token_is_not_None (t : option document) : bool :=
  match t with
  | None | Some (DScalar VNone) => false
  | Some _ => true
  end.

(** [d[k]] for a string [k]: the member, or the text of the [KeyError] or
    [TypeError] it raises (the wording for a string is that of Python 3.11
    and later). *)
Definition subscript (d : document) (k : string) : value + string :=
  match d with
  | DObject members =>
      match members !! k with
      | Some v => inl v
      | None => inr ("'" +:+ k +:+ "'")
      end
  | DArray _ => inr "list indices must be integers or slices, not str"
  | DScalar (VStr _) => inr "string indices must be integers, not 'str'"
  | DScalar v => inr ("'" +:+ type_name (DScalar v) +:+ "' object is not subscriptable")
  end.

(** [d.get]: anything but a dictionary has no such attribute. *)
Definition no_get (d : document) : string :=
  "'" +:+ type_name d +:+ "' object has no attribute 'get'".

(* ===================================================================== *)
(** ** The [binascii] and [base64] encoders behind [secrets] *)
(* ===================================================================== *)

Module Codec.

Definition hex_digits : string := "0123456789abcdef".

Definition pick (alphabet : string) (i : N) : ascii :=
  default "?"%char (String.get (N.to_nat i) alphabet).

(** [binascii.hexlify]. *)
Fixpoint hexlify (bs : list byte) : string :=
  match bs with
  | [] => ""
  | b :: rest =>
      let n := Byte.to_N b in
      String (pick hex_digits (N.shiftr n 4))
        (String (pick hex_digits (N.land n 15)) (hexlify rest))
  end.

(** The URL- and filename-safe alphabet of RFC 4648, section 5. *)
Definition urlsafe_alphabet : string :=
  "ABCDEFGHIJKLMNOPQRSTUVWXYZabcdefghijklmnopqrstuvwxyz0123456789-_".

Definition sextet (n : N) (shift : N) : ascii :=
  pick urlsafe_alphabet (N.land (N.shiftr n shift) 63).

Definition group24 (a b c : byte) : N :=
  N.lor (N.shiftl (Byte.to_N a) 16)
    (N.lor (N.shiftl (Byte.to_N b) 8) (Byte.to_N c)).

(** [base64.urlsafe_b64encode]: three bytes give four characters, and a
    final group of one or two bytes is padded with [=]. The result is
    ASCII, given here as the string that [.decode()] makes of it. *)
Fixpoint urlsafe_b64encode (bs : list byte) : string :=
  match bs with
  | [] => ""
  | [a] =>
      let n := group24 a x00 x00 in
      String (sextet n 18) (String (sextet n 12) "==")
  | [a; b] =>
      let n := group24 a b x00 in
      String (sextet n 18) (String (sextet n 12) (String (sextet n 6) "="))
  | a :: b :: c :: rest =>
      let n := group24 a b c in
      String (sextet n 18) (String (sextet n 12)
        (String (sextet n 6) (String (sextet n 0) (urlsafe_b64encode rest))))
  end.

(** The specification's [base64url_nopad]: the same encoding in which a
    short final group simply yields fewer characters. *)
Fixpoint base64url_nopad (bs : list byte) : string :=
  match bs with
  | [] => ""
  | [a] =>
      let n := group24 a x00 x00 in
      String (sextet n 18) (String (sextet n 12) "")
  | [a; b] =>
      let n := group24 a b x00 in
      String (sextet n 18) (String (sextet n 12) (String (sextet n 6) ""))
  | a :: b :: c :: rest =>
      let n := group24 a b c in
      String (sextet n 18) (String (sextet n 12)
        (String (sextet n 6) (String (sextet n 0) (base64url_nopad rest))))
  end.

(** Reading the alphabet backwards: the position of a character in it. *)
Fixpoint index_in (c : ascii) (s : string) : N :=
  match s with
  | "" => 0
  | String x rest => if Ascii.eqb c x then 0 else N.succ (index_in c rest)
  end.

Definition unpick (c : ascii) : N := index_in c urlsafe_alphabet.

End Codec.

(* ===================================================================== *)
(** ** [hashlib.sha256] *)
(* ===================================================================== *)

(** The digest of FIPS 180-4 on 32-bit words held in [Z], every addition
    reduced modulo [2^32]. *)
Module Sha256.

Local Open Scope Z_scope.

Definition mask32 : Z := 0xffffffff.
Definition w32 (x : Z) : Z := Z.land x mask32.
Definition add32 (x y : Z) : Z := w32 (x + y).
Definition rotr (n x : Z) : Z :=
  Z.lor (Z.shiftr x n) (w32 (Z.shiftl x (32 - n))).
Definition not32 (x : Z) : Z := Z.lxor x mask32.

Definition Ch (x y z : Z) : Z := Z.lxor (Z.land x y) (Z.land (not32 x) z).
Definition Maj (x y z : Z) : Z :=
  Z.lxor (Z.lxor (Z.land x y) (Z.land x z)) (Z.land y z).
Definition Sigma0 (x : Z) : Z := Z.lxor (Z.lxor (rotr 2 x) (rotr 13 x)) (rotr 22 x).
Definition Sigma1 (x : Z) : Z := Z.lxor (Z.lxor (rotr 6 x) (rotr 11 x)) (rotr 25 x).
Definition sigma0 (x : Z) : Z := Z.lxor (Z.lxor (rotr 7 x) (rotr 18 x)) (Z.shiftr x 3).
Definition sigma1 (x : Z) : Z := Z.lxor (Z.lxor (rotr 17 x) (rotr 19 x)) (Z.shiftr x 10).

(** The constants are fractional parts of roots of the first primes: the
    first 32 bits of the cube roots of the first 64 primes for [K], of the
    square roots of the first 8 primes for [H0]. *)
Definition is_prime (p : Z) : bool :=
  (1 <? p) && forallb (fun d => negb (p mod d =? 0)) (seqZ 2 (p - 2)).

Definition first_primes (n : nat) : list Z :=
  take n (List.filter is_prime (seqZ 2 400)).

(** The integer cube root, found bit by bit from the top. *)
Fixpoint cube_root_bits (bits : nat) (x found : Z) : Z :=
  match bits with
  | O => found
  | S bits' =>
      let candidate := found + 2 ^ Z.of_nat bits' in
      if candidate * candidate * candidate <=? x
      then cube_root_bits bits' x candidate
      else cube_root_bits bits' x found
  end.

Definition cube_root_fraction (p : Z) : Z :=
  w32 (cube_root_bits 40 (p * 2 ^ 96) 0).

Definition square_root_fraction (p : Z) : Z := w32 (Z.sqrt (p * 2 ^ 64)).

Definition K : list Z :=
  Eval vm_compute in cube_root_fraction <$> first_primes 64.

Definition H0 : list Z :=
  Eval vm_compute in square_root_fraction <$> first_primes 8.

(** Big-endian packing of bytes into 32-bit words and back. *)
Fixpoint words_of (bs : list Z) : list Z :=
  match bs with
  | a :: b :: c :: d :: rest =>
      Z.lor (Z.shiftl a 24) (Z.lor (Z.shiftl b 16) (Z.lor (Z.shiftl c 8) d))
      :: words_of rest
  | _ => []
  end.

Definition bytes_of_word (x : Z) : list Z :=
  [ Z.land (Z.shiftr x 24) 255; Z.land (Z.shiftr x 16) 255;
    Z.land (Z.shiftr x 8) 255; Z.land x 255 ].

(** Padding: a [1] bit, zeros up to 56 modulo 64, the bit length on 64 bits. *)
Definition pad (bs : list Z) : list Z :=
  let len := Z.of_nat (length bs) in
  let zeros := Z.to_nat ((55 - len) mod 64) in
  let bits := 8 * len in
  bs ++ [128] ++ replicate zeros 0
     ++ bytes_of_word (w32 (Z.shiftr bits 32)) ++ bytes_of_word (w32 bits).

(** The message schedule, newest word first while it is extended. *)
Fixpoint extend (n : nat) (rev_w : list Z) : list Z :=
  match n with
  | O => rev_w
  | S n' =>
      let at_ i := nth i rev_w 0 in
      let w := add32 (add32 (sigma1 (at_ 1%nat)) (at_ 6%nat))
                     (add32 (sigma0 (at_ 14%nat)) (at_ 15%nat)) in
      extend n' (w :: rev_w)
  end.

Definition schedule (block : list Z) : list Z :=
  rev (extend 48 (rev (words_of block))).

Definition round (s : list Z) (kw : Z * Z) : list Z :=
  match s with
  | [a; b; c; d; e; f; g; h] =>
      let t1 := add32 (add32 (add32 h (Sigma1 e)) (add32 (Ch e f g) kw.1)) kw.2 in
      let t2 := add32 (Sigma0 a) (Maj a b c) in
      [add32 t1 t2; a; b; c; add32 d t1; e; f; g]
  | _ => s
  end.

Definition compress (h : list Z) (block : list Z) : list Z :=
  zip_with add32 h (foldl round h (zip K (schedule block))).

Fixpoint blocks (n : nat) (bs : list Z) : list (list Z) :=
  match n with
  | O => []
  | S n' => take 64 bs :: blocks n' (drop 64 bs)
  end.

Definition digest_words (bs : list Z) : list Z :=
  let padded := pad bs in
  foldl compress H0 (blocks (length padded / 64) padded).

Definition to_byte (x : Z) : byte := default x00 (Byte.of_N (Z.to_N x)).
Definition of_byte (b : byte) : Z := Z.of_N (Byte.to_N b).

(** [hashlib.sha256(data).digest()]. *)
Definition sha256 (data : list byte) : list byte :=
  to_byte <$> (digest_words (of_byte <$> data) ≫= bytes_of_word).

End Sha256.

(* ===================================================================== *)
(** ** The outside world *)
(* ===================================================================== *)

(** What [requests] puts on the wire. *)
Inductive payload : Type :=
| NoBody
| JsonBody (j : jvalue)
| FormData (fields : list (string * value)).

Record Request : Type := mkRequest {
  method : string;
  url : string;
  headers : list (string * string);
  body : payload
}.

(** What the program looks at in a [requests.Response]: the status, the raw
    text, and [json()]. [json = None] stands for a body that is not JSON, on
    which [json()] raises. The objects read here are a token response, whose
    members are scalars, and a Cloud Run service, of which only the member
    [status] is read: [json_status] is that member when it is an object (of
    scalars) or an array, while a scalar [status] is one of the members of
    [json]. *)
Record Response : Type := mkResponse {
  status_code : Z;
  text : string;
  json : option document;
  json_status : option document
}.

(** A call of [requests] answers or raises (connection refused, time-out). *)
Inductive Outcome : Type :=
| Responds (r : Response)
| Fails (exc : string).

(** The environment the process runs in. The network answers a request
    knowing the requests issued before it, newest first. *)
Record Env : Type := mkEnv {
  net : list Request -> Request -> Outcome;
  urandom : nat -> byte;
  environ : gmap string string
}.

(** Everything the application can change: the two files under [/data], the
    session, how many bytes of [urandom] were drawn and the seconds spent in
    [time.sleep]; and, as a record of what happened, the HTTP calls made so
    far, newest first, each with what came back. *)
Record World : Type := mkWorld {
  setup_file : option dict;
  token_file : option document;
  session : dict;
  calls : list (Request * Outcome);
  drawn : nat;
  slept : Z
}.

Definition initial_world : World :=
  {| setup_file := None; token_file := None; session := ∅;
     calls := []; drawn := 0; slept := 0 |}.

(** The requests issued so far, newest first: what the network knows. *)
Definition history (w : World) : list Request := (calls w).*1.

(** [request.json]: the document in the body, or the exception that
    reading it raises when the body is not announced as JSON or is not JSON. *)
Inductive RequestJson : Type :=
| Json (d : document)
| NoJson (exc : string).

(** The part of [flask.request] the views read. *)
Record FlaskRequest : Type := mkFlaskRequest {
  url_root : string;
  args : gmap string string;
  json_in : RequestJson
}.

(** What a view hands back to Flask: [redirect(location + "?" +
    urlencode(query))] (an empty [query] adds nothing), [render_template]
    of the error page, or [jsonify(data), status]. *)
Inductive Reply : Type :=
| Redirect (location : string) (query : list (string * string))
| RenderTemplate (template : string) (error : string)
| Jsonify (data : dict) (status : Z).

(* ===================================================================== *)
(** ** Computations: state and exceptions *)
(* ===================================================================== *)

Inductive result (A : Type) : Type :=
| Returns (a : A) (w : World)
| Raises (exc : string) (w : World).
Arguments Returns {A} a w.
Arguments Raises {A} exc w.

Definition M (A : Type) : Type := World -> result A.

#[global] Instance M_ret : MRet M := fun A a w => Returns a w.
#[global] Instance M_bind : MBind M := fun A B f m w =>
  match m w with
  | Returns a w' => f a w'
  | Raises exc w' => Raises exc w'
  end.

Definition raise {A} (exc : string) : M A := fun w => Raises exc w.

(** [try: m except Exception as e: handler(str(e))]. *)
Definition try_except {A} (m : M A) (handler : string -> M A) : M A := fun w =>
  match m w with
  | Returns a w' => Returns a w'
  | Raises exc w' => handler exc w'
  end.

(** [v or g()], where [g] returns a string: [g] runs only if [v] is falsy. *)
Definition py_or (v : value) (g : M string) : M value :=
  if truthy v then mret v else s ← g; mret (VStr s).

(** [for x in xs: f(x)]. *)
Fixpoint for_each {A} (xs : list A) (f : A -> M unit) : M unit :=
  match xs with
  | [] => mret tt
  | x :: rest => f x ;; for_each rest f
  end.

Definition world_of {A} (r : result A) : World :=
  match r with Returns _ w | Raises _ w => w end.

Definition returned {A} (r : result A) : option A :=
  match r with Returns a _ => Some a | Raises _ _ => None end.

(* ===================================================================== *)
(** ** The application *)
(* ===================================================================== *)

Definition GOOGLE_CLIENT_ID : string :=
  "292824132082-7a1h7ae29f4aepk6qng3296kdlnpqhea.apps.googleusercontent.com".
Definition GOOGLE_AUTH_URL : string := "https://accounts.google.com/o/oauth2/v2/auth".
Definition GOOGLE_TOKEN_URL : string := "https://oauth2.googleapis.com/token".
Definition SCOPES : list string :=
  [ "https://www.googleapis.com/auth/cloud-platform";
    "https://www.googleapis.com/auth/userinfo.email" ].
Definition TUNNEL_IMAGE : string :=
  "ghcr.io/bramalkema/gcp-ha-tunnel/tunnel-server:latest".

(** The endpoints [run_setup] calls, as its f-strings build them. *)
Definition projects_url : string :=
  "https://cloudresourcemanager.googleapis.com/v1/projects".
Definition billing_info_url (project_id : value) : string :=
  "https://cloudbilling.googleapis.com/v1/projects/"
    +:+ str project_id +:+ "/billingInfo".
Definition enable_url (project_id : value) (api : string) : string :=
  "https://serviceusage.googleapis.com/v1/projects/"
    +:+ str project_id +:+ "/services/" +:+ api +:+ ":enable".
Definition services_url (project_id : value) : string :=
  "https://run.googleapis.com/apis/serving.knative.dev/v1/namespaces/"
    +:+ str project_id +:+ "/services".
Definition service_url (project_id : value) : string :=
  "https://run.googleapis.com/apis/serving.knative.dev/v1/namespaces/"
    +:+ str project_id +:+ "/services/ha-tunnel".
Definition set_iam_policy_url (project_id : value) (region : string) : string :=
  "https://run.googleapis.com/v1/projects/" +:+ str project_id
    +:+ "/locations/" +:+ region +:+ "/services/ha-tunnel:setIamPolicy".
Definition get_service_url (project_id : value) (region : string) : string :=
  "https://run.googleapis.com/v1/projects/" +:+ str project_id
    +:+ "/locations/" +:+ region +:+ "/services/ha-tunnel".
Definition supervisor_options_url : string := "http://supervisor/addons/self/options".
Definition supervisor_restart_url : string := "http://supervisor/addons/self/restart".

(** The options [update_addon_config] pushes, and the header it sends. *)
Definition addon_config (state : dict) : jvalue :=
  JObj [
    ("server_url", json_of (get_or state "server_url" (VStr "")));
    ("auth_user", JStr "hauser");
    ("auth_pass", json_of (get_or state "password" (VStr "")));
    ("google_project_id", json_of (get_or state "project_id" (VStr "")));
    ("local_port", JNum 8123);
    ("keepalive", JStr "25s");
    ("log_level", JStr "info");
    ("google_secure_devices_pin", JStr "") ].

Definition supervisor_headers (supervisor_token : string) : list (string * string) :=
  [("Authorization", "Bearer " +:+ supervisor_token)].

(** The headers [gcp_api] sends. *)
Definition gcp_headers (access_token : value) : list (string * string) :=
  [ ("Authorization", "Bearer " +:+ str access_token);
    ("Content-Type", "application/json") ].

(** [sep.join(parts)]. *)
Fixpoint join (sep : string) (parts : list string) : string :=
  match parts with
  | [] => ""
  | [p] => p
  | p :: rest => p +:+ sep +:+ join sep rest
  end.

(** The dictionary [get_setup_state] returns when there is no file yet. *)
Definition fresh_state : dict :=
  <["step" := VStr "start"]> (<["project_id" := VNone]> (<["password" := VNone]> ∅)).

(** The Cloud Run service descriptor of the deploy step. *)
Definition service_config (password : value) : jvalue :=
  JObj [
    ("apiVersion", JStr "serving.knative.dev/v1");
    ("kind", JStr "Service");
    ("metadata", JObj [
      ("name", JStr "ha-tunnel");
      ("annotations", JObj [("run.googleapis.com/ingress", JStr "all")])]);
    ("spec", JObj [
      ("template", JObj [
        ("metadata", JObj [
          ("annotations", JObj [
            ("autoscaling.knative.dev/minScale", JStr "0");
            ("autoscaling.knative.dev/maxScale", JStr "1");
            ("run.googleapis.com/cpu-throttling", JStr "true")])]);
        ("spec", JObj [
          ("containerConcurrency", JNum 80);
          ("timeoutSeconds", JNum 3600);
          ("containers", JArr [
            JObj [
              ("image", JStr TUNNEL_IMAGE);
              ("env", JArr [
                JObj [("name", JStr "AUTH");
                      ("value", JStr ("hauser:" +:+ str password))]]);
              ("resources", JObj [
                ("limits", JObj [("cpu", JStr "1"); ("memory", JStr "256Mi")])]);
              ("ports", JArr [JObj [("containerPort", JNum 8080)]])]])])])])].

Definition iam_policy : jvalue :=
  JObj [("bindings", JArr [
    JObj [("role", JStr "roles/run.invoker");
          ("members", JArr [JStr "allUsers"])]])].

Section App.

Context (env : Env).

(** *** Effects *)

(** [secrets.token_bytes(n)]: the next [n] bytes of [os.urandom]. *)
Definition token_bytes (n : nat) : M (list byte) := fun w =>
  Returns (urandom env <$> seq (drawn w) n)
    {| setup_file := setup_file w; token_file := token_file w;
       session := session w; calls := calls w;
       drawn := drawn w + n; slept := slept w |}.

Definition token_hex (n : nat) : M string :=
  bs ← token_bytes n; mret (Codec.hexlify bs).

Definition token_urlsafe (n : nat) : M string :=
  bs ← token_bytes n; mret (rstrip "=" (Codec.urlsafe_b64encode bs)).

(** [requests.request(method, url, ...)]. *)
Definition send (r : Request) : M Response := fun w =>
  let outcome := net env (history w) r in
  let w' := {| setup_file := setup_file w; token_file := token_file w;
               session := session w; calls := (r, outcome) :: calls w;
               drawn := drawn w; slept := slept w |} in
  match outcome with
  | Responds resp => Returns resp w'
  | Fails exc => Raises exc w'
  end.

(** [resp.json()]. *)
Definition json_of_response (resp : Response) : M document :=
  match json resp with
  | Some d => mret d
  | None => raise "Expecting value: line 1 column 1 (char 0)"
  end.

(** [request.json.get(k)]. *)
Definition request_json_get (req : FlaskRequest) (k : string) : M value :=
  match json_in req with
  | Json (DObject members) => mret (get members k)
  | Json other => raise (no_get other)
  | NoJson exc => raise exc
  end.

Definition sleep (seconds : Z) : M unit := fun w =>
  Returns tt
    {| setup_file := setup_file w; token_file := token_file w;
       session := session w; calls := calls w;
       drawn := drawn w; slept := (slept w + seconds)%Z |}.

Definition session_set (k : string) (v : value) : M unit := fun w =>
  Returns tt
    {| setup_file := setup_file w; token_file := token_file w;
       session := <[k := v]> (session w); calls := calls w;
       drawn := drawn w; slept := slept w |}.

Definition session_get (k : string) : M value := fun w =>
  Returns (get (session w) k) w.

(** *** The functions of [app.py] *)

Definition get_ingress_path : string :=
  default "" (environ env !! "INGRESS_PATH").

Definition generate_project_name : M string :=
  suffix ← token_hex 3; mret ("ha-tunnel-" +:+ suffix).

Definition generate_password : M string := token_urlsafe 24.

Definition get_setup_state : M dict := fun w =>
  Returns (default fresh_state (setup_file w)) w.

Definition save_setup_state (state : dict) : M unit := fun w =>
  Returns tt
    {| setup_file := Some state; token_file := token_file w;
       session := session w; calls := calls w;
       drawn := drawn w; slept := slept w |}.

Definition get_token : M (option document) := fun w => Returns (token_file w) w.

Definition save_token (token : document) : M unit := fun w =>
  Returns tt
    {| setup_file := setup_file w; token_file := Some token;
       session := session w; calls := calls w;
       drawn := drawn w; slept := slept w |}.

(** [token['access_token']] raises [KeyError] when the key is missing, and
    [TypeError] when the token is no dictionary. *)
Definition gcp_api (method url : string) (token : document) (body : payload)
  : M Response :=
  match subscript token "access_token" with
  | inr exc => raise exc
  | inl access_token =>
      send {| method := method; url := url;
              headers := gcp_headers access_token; body := body |}
  end.

Definition callback_uri (req : FlaskRequest) : string :=
  rstrip "/" (url_root req) +:+ get_ingress_path +:+ "/auth/callback".

Definition auth_start (req : FlaskRequest) : M Reply :=
  code_verifier ← token_urlsafe 64;
  let code_challenge :=
    rstrip "=" (Codec.urlsafe_b64encode (Sha256.sha256 (encode code_verifier))) in
  session_set "code_verifier" (VStr code_verifier) ;;
  let params :=
    [ ("client_id", GOOGLE_CLIENT_ID);
      ("redirect_uri", callback_uri req);
      ("response_type", "code");
      ("scope", join " " SCOPES);
      ("code_challenge", code_challenge);
      ("code_challenge_method", "S256");
      ("access_type", "offline");
      ("prompt", "consent") ] in
  mret (Redirect GOOGLE_AUTH_URL params).

Definition auth_callback (req : FlaskRequest) : M Reply :=
  let code := args req !! "code" in
  let error := args req !! "error" in
  if truthy_arg error then
    mret (RenderTemplate "error.html" (default "" error))
  else if negb (truthy_arg code) then
    mret (RenderTemplate "error.html" "No authorization code received")
  else
    code_verifier ← session_get "code_verifier";
    resp ← send {| method := "POST"; url := GOOGLE_TOKEN_URL; headers := [];
                   body := FormData [
                     ("client_id", VStr GOOGLE_CLIENT_ID);
                     ("code", VStr (default "" code));
                     ("code_verifier", code_verifier);
                     ("grant_type", VStr "authorization_code");
                     ("redirect_uri", VStr (callback_uri req)) ] |};
    if negb (status_code resp =? 200)%Z then
      mret (RenderTemplate "error.html"
              ("Token exchange failed: " +:+ text resp))
    else
      token ← json_of_response resp;
      save_token token ;;
      state ← get_setup_state;
      let state := <["step" := VStr "authenticated"]> state in
      save_setup_state state ;;
      mret (Redirect (get_ingress_path +:+ "/") []).

Definition update_addon_config (state : dict) : M unit :=
  let supervisor_token := environ env !! "SUPERVISOR_TOKEN" in
  if negb (truthy_arg supervisor_token) then mret tt
  else
    let config := addon_config state in
    resp ← send {| method := "POST"; url := supervisor_options_url;
                   headers := supervisor_headers (default "" supervisor_token);
                   body := JsonBody (JObj [("options", config)]) |};
    if (status_code resp =? 200)%Z then
      send {| method := "POST"; url := supervisor_restart_url;
              headers := supervisor_headers (default "" supervisor_token);
              body := NoBody |} ;;
      mret tt
    else mret tt.

(** [service_data.get("status", {}).get("url", "")]: a body that is no
    object, and a [status] that is no object, have no [get] and raise
    [AttributeError]. *)
Definition status_url (resp : Response) : M value :=
  service_data ← json_of_response resp;
  match service_data with
  | DObject members =>
      match json_status resp with
      | Some (DObject status) => mret (get_or status "url" (VStr ""))
      | Some other => raise (no_get other)
      | None =>
          match members !! "status" with
          | Some v => raise (no_get (DScalar v))
          | None => mret (VStr "")
          end
      end
  | other => raise (no_get other)
  end.

Definition error_reply (msg : string) (status : Z) : Reply :=
  Jsonify (<["error" := VStr msg]> ∅) status.

(** The statements of the [try] block of [run_setup] that follow the check
    of the project-create call (steps 2 to 5); [state] is the dictionary
    last saved, [return] inside the block ends it. Nothing here looks at the
    answer to the project-create call. *)
Definition after_project (token : document) (state : dict)
    (project_id password billing_account : value) : M Reply :=
  let state := <["step" := VStr "linking_billing"]> state in
  save_setup_state state ;;
  (* Step 2: Link billing *)
  billing_failure ← (
    if truthy billing_account then
      resp ← gcp_api "PUT" (billing_info_url project_id) token
               (JsonBody (JObj [("billingAccountName",
                                 json_of billing_account)]));
      if negb (status_code resp =? 200)%Z then
        mret (Some (Jsonify
                (<["error" := VStr ("Failed to link billing: " +:+ text resp)]>
                   (<["billing_required" := VBool true]> ∅)) 400))
      else mret None
    else mret None);
  match billing_failure with
  | Some reply => mret reply
  | None =>
  let state := <["step" := VStr "enabling_apis"]> state in
  save_setup_state state ;;
  (* Step 3: Enable APIs *)
  let apis := ["run.googleapis.com"; "cloudbuild.googleapis.com"] in
  for_each apis (fun api =>
    gcp_api "POST" (enable_url project_id api) token NoBody ;;
    mret tt) ;;
  sleep 5 ;;
  let state := <["step" := VStr "deploying"]> state in
  save_setup_state state ;;
  (* Step 4: Deploy Cloud Run *)
  let region := "us-central1" in
  resp ← gcp_api "POST" (services_url project_id) token
           (JsonBody (service_config password));
  resp ← (if negb (bool_decide (status_code resp ∈ [200; 201]%Z)) then
            gcp_api "PUT" (service_url project_id) token
              (JsonBody (service_config password))
          else mret resp);
  if negb (bool_decide (status_code resp ∈ [200; 201]%Z)) then
    mret (error_reply ("Failed to deploy: " +:+ text resp) 500)
  else
  (* Step 5: Make service public *)
  gcp_api "POST" (set_iam_policy_url project_id region) token
    (JsonBody (JObj [("policy", iam_policy)])) ;;
  (* Get service URL *)
  resp ← gcp_api "GET" (get_service_url project_id region) token NoBody;
  state ← (if (status_code resp =? 200)%Z then
             service_url ← status_url resp;
             mret (<["server_url" := service_url]> state)
           else mret state);
  let state := <["step" := VStr "complete"]> state in
  save_setup_state state ;;
  update_addon_config state ;;
  mret (Jsonify
          (<["success" := VBool true]>
            (<["project_id" := project_id]>
              (<["server_url" := get_or state "server_url" (VStr "")]>
                (<["password" := password]> ∅)))) 200)
  end.

(** The [try] block of [run_setup]: step 1, then the rest. *)
Definition provision (token : document) (state : dict)
    (project_id password billing_account : value) : M Reply :=
  (* Step 1: Create project *)
  resp ← gcp_api "POST" projects_url token
           (JsonBody (JObj [("projectId", json_of project_id);
                            ("name", JStr "HA Tunnel")]));
  if negb (bool_decide (status_code resp ∈ [200; 409]%Z)) then
    mret (error_reply ("Failed to create project: " +:+ text resp) 500)
  else
    after_project token state project_id password billing_account.

(** The [request.json.get] of line 219 is outside the [try] block: what it
    raises is not handled, and comes after the two identifiers were resolved
    and before anything is saved. *)
Definition run_setup (req : FlaskRequest) : M Reply :=
  token ← get_token;
  if negb (truthy_token token) then mret (error_reply "Not authenticated" 401)
  else
  let token := default (DObject ∅) token in
  state ← get_setup_state;
  project_id ← py_or (get state "project_id") generate_project_name;
  password ← py_or (get state "password") generate_password;
  billing_account ← request_json_get req "billing_account";
  let state := <["project_id" := project_id]> state in
  let state := <["password" := password]> state in
  let state := <["step" := VStr "creating_project"]> state in
  save_setup_state state ;;
  try_except
    (provision token state project_id password billing_account)
    (fun e => mret (error_reply e 500)).

Definition get_status : M Reply :=
  state ← get_setup_state;
  token ← get_token;
  mret (Jsonify
          (<["authenticated" := VBool (token_is_not_None token)]>
            (<["step" := get_or state "step" (VStr "start")]>
              (<["project_id" := get state "project_id"]>
                (<["server_url" := get state "server_url"]>
                  (<["has_password" :=
                       VBool (is_not_None (get state "password"))]> ∅))))) 200).

End App.


(* ===================================================================== *)
(** ** The vocabulary of the specification *)
(* ===================================================================== *)

(** The setup state as [get_setup_state] finds it, and the step that
    [get_status] reports for it. *)
Definition persisted_state (w : World) : dict := default fresh_state (setup_file w).

Definition persisted_step (w : World) : value :=
  get_or (persisted_state w) "step" (VStr "start").

(** The steps in the order in which the source assigns them. *)
Definition step_order : list string :=
  [ "start"; "authenticated"; "creating_project"; "linking_billing";
    "enabling_apis"; "deploying"; "complete" ].

Fixpoint index_of (s : string) (l : list string) : option nat :=
  match l with
  | [] => None
  | x :: rest => if String.eqb s x then Some 0 else S <$> index_of s rest
  end.

Definition step_rank (v : value) : option nat :=
  match v with
  | VStr s => index_of s step_order
  | _ => None
  end.

(** [a] is at or before [b] in [step_order]; both have to be steps. *)
Definition step_le (a b : value) : Prop :=
  match step_rank a, step_rank b with
  | Some i, Some j => (i <= j)%nat
  | _, _ => False
  end.

(** The two operations that write the setup state. *)
Inductive operation : Type := CompleteAuthorization | RunSetup.

Definition perform (env : Env) (req : FlaskRequest) (op : operation) : M Reply :=
  match op with
  | CompleteAuthorization => auth_callback env req
  | RunSetup => run_setup env req
  end.

(** The step each operation writes first. *)
Definition entry_step (op : operation) : value :=
  match op with
  | CompleteAuthorization => VStr "authenticated"
  | RunSetup => VStr "creating_project"
  end.

(** Worlds that the application can be in: it starts with no files and is
    driven by requests, under any environment. *)
Inductive reachable : World → Prop :=
| reachable_initial : reachable initial_world
| reachable_auth_start env req w :
    reachable w → reachable (world_of (auth_start env req w))
| reachable_perform env req op w :
    reachable w → reachable (world_of (perform env req op w))
| reachable_get_status w :
    reachable w → reachable (world_of (get_status w)).

(** The billing account a request to [run_setup] names, if its body is a
    JSON object. *)
Definition billing_account_of (req : FlaskRequest) : value :=
  match json_in req with
  | Json (DObject members) => get members "billing_account"
  | _ => VNone
  end.

Definition object_body (req : FlaskRequest) : Prop :=
  ∃ members, json_in req = Json (DObject members).

(** The calls a computation added to the record, newest first. *)
Definition added (w w' : World) (new : list (Request * Outcome)) : Prop :=
  calls w' = (new ++ calls w)%list.

(** The kinds of request [run_setup] issues, told apart by what is literal
    in them: the method, the keys of the body, the publisher's URLs. *)
Definition is_billing_attach (r : Request) : bool :=
  String.eqb (method r) "PUT"
  && match body r with
     | JsonBody (JObj [(k, _)]) => String.eqb k "billingAccountName"
     | _ => false
     end.

(** A JSON body that is a Knative [Service] object. *)
Definition is_service_descriptor (b : payload) : bool :=
  match b with
  | JsonBody (JObj (_ :: (k, JStr v) :: _)) =>
      String.eqb k "kind" && String.eqb v "Service"
  | _ => false
  end.

Definition is_service_create (r : Request) : bool :=
  String.eqb (method r) "POST" && is_service_descriptor (body r).

Definition is_service_get (r : Request) : bool := String.eqb (method r) "GET".

Definition is_publisher_call (r : Request) : bool :=
  String.eqb (url r) supervisor_options_url
  || String.eqb (url r) supervisor_restart_url.

(** The calls of a kind among the calls made, in the same order. *)
Fixpoint matching (kind : Request → bool) (cs : list (Request * Outcome))
  : list (Request * Outcome) :=
  match cs with
  | [] => []
  | c :: rest => if kind c.1 then c :: matching kind rest else matching kind rest
  end.

(** Each call of a kind together with the call made right after it, if any
    ([cs] is newest first, [next] is the call made after all of [cs]). *)
Fixpoint followed (kind : Request → bool) (next : option (Request * Outcome))
    (cs : list (Request * Outcome))
  : list ((Request * Outcome) * option (Request * Outcome)) :=
  match cs with
  | [] => []
  | c :: rest =>
      if kind c.1 then (c, next) :: followed kind (Some c) rest
      else followed kind (Some c) rest
  end.


(** The reply of a run that went through. *)
Definition success_reply (project_id server_url password : value) : Reply :=
  Jsonify
    (<["success" := VBool true]>
      (<["project_id" := project_id]>
        (<["server_url" := server_url]>
          (<["password" := password]> ∅)))) 200.

(** The reply that tells the caller to ask for a billing account again. *)
Definition billing_required (r : Reply) : Prop :=
  match r with
  | Jsonify data _ => data !! "billing_required" = Some (VBool true)
  | _ => False
  end.

(** Characters of the base64url alphabet, and strings made of them. *)
Definition in_alphabet (c : ascii) : Prop :=
  ∃ i, String.get i Codec.urlsafe_alphabet = Some c.

Fixpoint all_chars (P : ascii → Prop) (s : string) : Prop :=
  match s with
  | "" => True
  | String c rest => P c ∧ all_chars P rest
  end.

(** The ways [auth_callback] fails, and the page each one renders. *)
Inductive AuthError : Type :=
| AuthorizationDenied (provider_error : string)
| AuthorizationMissingCode
| TokenExchangeFailed (details : string).

Definition error_page (e : AuthError) : Reply :=
  RenderTemplate "error.html"
    match e with
    | AuthorizationDenied provider_error => provider_error
    | AuthorizationMissingCode => "No authorization code received"
    | TokenExchangeFailed details => "Token exchange failed: " +:+ details
    end.

(** The token request [auth_callback] posts. *)
Definition token_request (env : Env) (req : FlaskRequest) (w : World) : Request :=
  {| method := "POST"; url := GOOGLE_TOKEN_URL; headers := [];
     body := FormData [
       ("client_id", VStr GOOGLE_CLIENT_ID);
       ("code", VStr (default "" (args req !! "code")));
       ("code_verifier", get (session w) "code_verifier");
       ("grant_type", VStr "authorization_code");
       ("redirect_uri", VStr (callback_uri env req)) ] |}.

(** The steps [run_setup] writes. *)
Definition later_steps : list string := drop 2 step_order.

(** How [provision] rewrites the setup state it was given: it moves the
    step among [later_steps] and records the service URL, nothing else. *)
Inductive advanced (state : dict) : dict → Prop :=
| advanced_none : advanced state state
| advanced_step s st :
    advanced state st → s ∈ later_steps →
    advanced state (<["step" := VStr s]> st)
| advanced_url v st :
    advanced state st → advanced state (<["server_url" := v]> st).

(** The state [run_setup] saves before its [try] block, the world at that
    point, and the handler of the block. *)
Definition entered_state (w : World) (pid pw : value) : dict :=
  <["step" := VStr "creating_project"]>
    (<["password" := pw]> (<["project_id" := pid]> (persisted_state w))).

Definition entered_world (w : World) (pid pw : value) (n : nat) : World :=
  {| setup_file := Some (entered_state w pid pw); token_file := token_file w;
     session := session w; calls := calls w;
     drawn := drawn w + n; slept := slept w |}.

Definition on_error : string → M Reply := fun e => mret (error_reply e 500).

(** *** Weakest preconditions *)

Definition wp {A} (m : M A) (Q : result A → Prop) (w : World) : Prop := Q (m w).

Definition issue (r : Request) (o : Outcome) (w : World) : World :=
  {| setup_file := setup_file w; token_file := token_file w;
     session := session w; calls := (r, o) :: calls w;
     drawn := drawn w; slept := slept w |}.

Definition draw (n : nat) (w : World) : World :=
  {| setup_file := setup_file w; token_file := token_file w;
     session := session w; calls := calls w;
     drawn := drawn w + n; slept := slept w |}.

(** *** Scenarios *)

(** A network that answers the n-th call it sees with the n-th entry of a
    script, and with [otherwise] once the script is used up. *)
Definition scripted (script : list Outcome) (otherwise : Outcome)
  : list Request → Request → Outcome :=
  fun h _ => default otherwise (script !! length h).

Definition answer (status : Z) (txt : string) : Outcome :=
  Responds {| status_code := status; text := txt; json := None; json_status := None |}.

Definition token_answer : Outcome :=
  Responds {| status_code := 200; text := "{...}";
              json := Some (DObject (<["access_token" := VStr "ya29.a0"]>
                                       (<["refresh_token" := VStr "1//0g"]> ∅)));
              json_status := None |}.

Definition service_answer (service_url : string) : Outcome :=
  Responds {| status_code := 200; text := "{...}";
              json := Some (DObject (<["kind" := VStr "Service"]> ∅));
              json_status := Some (DObject (<["url" := VStr service_url]> ∅)) |}.

Definition counting_bytes (n : nat) : byte :=
  default x00 (Byte.of_N (N.of_nat (n * 37 + 11) mod 256)).

Definition scenario (script : list Outcome) (supervisor_token : option string) : Env :=
  {| net := scripted script (answer 503 "unavailable");
     urandom := counting_bytes;
     environ := match supervisor_token with
                | Some t => <["SUPERVISOR_TOKEN" := t]> ∅
                | None => ∅
                end |}.

Definition callback_with (arguments : list (string * string)) : FlaskRequest :=
  {| url_root := "http://homeassistant.local:8123/";
     args := list_to_map arguments;
     json_in := NoJson "415 Unsupported Media Type" |}.

Definition setup_with (billing_account : value) : FlaskRequest :=
  {| url_root := "http://homeassistant.local:8123/"; args := ∅;
     json_in := Json (DObject (<["billing_account" := billing_account]> ∅)) |}.

(** The world after a user has authorised: one token exchange, answered. *)
Definition authorised_world : World :=
  world_of (auth_callback (scenario [token_answer] None)
              (callback_with [("code", "4/0Ab")])
              (world_of (auth_start (scenario [] None) (callback_with []) initial_world))).

(** A complete run from there: the project is created, billing attached,
    the service already exists and is updated, and its URL is read back. *)
Definition happy_script : list Outcome :=
  [ token_answer;
    answer 200 "{}"; answer 200 "{}"; answer 200 "{}"; answer 200 "{}";
    answer 409 "ALREADY_EXISTS"; answer 200 "{}"; answer 200 "{}";
    service_answer "https://ha-tunnel-x7-uc.a.run.app" ].

Definition completed_world : World :=
  world_of (run_setup (scenario happy_script None)
              (setup_with (VStr "billingAccounts/ABC123")) authorised_world).



Definition refused_billing : Env :=
  scenario [token_answer; answer 409 "ALREADY_EXISTS"; answer 403 "billing disabled"] None.

Definition no_url_script : list Outcome :=
  [ token_answer;
    answer 200 "{}"; answer 200 "{}"; answer 200 "{}"; answer 200 "{}";
    answer 409 "ALREADY_EXISTS"; answer 200 "{}"; answer 200 "{}";
    answer 404 "NOT_FOUND" ].

Definition unreachable_supervisor : Env :=
  scenario (happy_script ++ [Fails "Connection refused"])%list (Some "supervisor-token").

Definition refusing_supervisor : Env :=
  scenario (happy_script ++ [answer 400 "invalid options"])%list (Some "supervisor-token").

Definition billing_request : FlaskRequest :=
  setup_with (VStr "billingAccounts/ABC123").

Definition happy_run : result Reply :=
  run_setup (scenario happy_script None) billing_request authorised_world.


Definition run_without_url : result Reply :=
  run_setup (scenario no_url_script None) billing_request authorised_world.

Definition run_with_unreachable_supervisor : result Reply :=
  run_setup unreachable_supervisor billing_request authorised_world.

Definition run_with_refusing_supervisor : result Reply :=
  run_setup refusing_supervisor billing_request authorised_world.

(** What a list of calls looks like from afar. *)
Definition status_of (o : Outcome) : option Z :=
  match o with Responds r => Some (status_code r) | Fails _ => None end.

Definition outline (cs : list (Request * Outcome)) : list (string * option Z) :=
  (λ c, (method c.1, status_of c.2)) <$> cs.

(** A setup request whose body is the JSON array [[1]], and a token
    endpoint that answers 200 with that array. *)
Definition array_request : FlaskRequest :=
  {| url_root := "http://homeassistant.local:8123/"; args := ∅;
     json_in := Json (DArray [JNum 1]) |}.

Definition array_answer : Outcome :=
  Responds {| status_code := 200; text := "[1]";
              json := Some (DArray [JNum 1]); json_status := None |}.

(** A callback that carries an empty [error] parameter next to a code. *)
Definition empty_error_callback : FlaskRequest :=
  callback_with [("error", ""); ("code", "4/0Ab")].

(** [get_status] as a record of its five members. *)
Definition status_reply (authenticated : bool) (step project_id server_url : value)
    (has_password : bool) : Reply :=
  Jsonify
    (<["authenticated" := VBool authenticated]>
      (<["step" := step]>
        (<["project_id" := project_id]>
          (<["server_url" := server_url]>
            (<["has_password" := VBool has_password]> ∅))))) 200.

(* ===================================================================== *)
(** * Properties *)
(* ===================================================================== *)

(** ** The encoders run on known vectors *)

Example hexlify_bytes : Codec.hexlify [xfb; x0f; x10] = "fb0f10".
Proof. reflexivity. Qed.

Example b64_padded : Codec.urlsafe_b64encode (encode "fooba") = "Zm9vYmE=".
Proof. reflexivity. Qed.

Example b64_urlsafe : Codec.urlsafe_b64encode [xfb; xff] = "-_8=".
Proof. reflexivity. Qed.

Example rstrip_only_trailing : rstrip "=" "a=b==" = "a=b".
Proof. reflexivity. Qed.

Example sha256_constants :
  length Sha256.K = 64 ∧ head Sha256.K = Some 0x428a2f98%Z
  ∧ last Sha256.K = Some 0xc67178f2%Z ∧ head Sha256.H0 = Some 0x6a09e667%Z.
Proof. split_and!; reflexivity. Qed.

(** FIPS 180-4, appendix B.1 and B.2. *)
Example sha256_abc :
  Codec.hexlify (Sha256.sha256 (encode "abc"))
  = "ba7816bf8f01cfea414140de5dae2223b00361a396177a9cb410ff61f20015ad".
Proof. vm_compute. reflexivity. Qed.

Example sha256_two_blocks :
  Codec.hexlify (Sha256.sha256
    (encode "abcdbcdecdefdefgefghfghighijhijkijkljklmklmnlmnomnopnopq"))
  = "248d6a61d20638b8e5c026930c3e6039a33ce45964ff2167f6ecedd419db06c1".
Proof. vm_compute. reflexivity. Qed.

(** RFC 7636, appendix B: the verifier and the challenge derived from it. *)
Example pkce_rfc7636 :
  rstrip "=" (Codec.urlsafe_b64encode
    (Sha256.sha256 (encode "dBjftJeZ4CVP-mB92K27uhbUJU1p1r_wW1gFWFOEjXk")))
  = "E9Melhoa2OwvFrEMTJguCHaoeK1t8URWbuGJSstw-cM".
Proof. vm_compute. reflexivity. Qed.

(** ** Base64 without padding *)

Section Base64.

Import Codec.

(** Induction that follows the encoder: three bytes at a time. *)
Lemma bytes_by_three (P : list byte → Prop) :
  P [] → (∀ a, P [a]) → (∀ a b, P [a; b]) →
  (∀ a b c rest, P rest → P (a :: b :: c :: rest)) →
  ∀ bs, P bs.
Proof.
  intros H0 H1 H2 H3 bs.
  cut (P bs ∧ (∀ a, P (a :: bs)) ∧ (∀ a b, P (a :: b :: bs))); [tauto|].
  induction bs as [|x bs (IH0 & IH1 & IH2)]; repeat split; auto.
Qed.

Lemma pick_below_64 (i : nat) :
  (i < 64)%nat →
  pick urlsafe_alphabet (N.of_nat i) ≠ "="%char
  ∧ in_alphabet (pick urlsafe_alphabet (N.of_nat i)).
Proof.
  intros Hi. unfold pick, in_alphabet. rewrite Nat2N.id.
  cut (default "?"%char (String.get i urlsafe_alphabet) ≠ "="%char
       ∧ String.get i urlsafe_alphabet
         = Some (default "?"%char (String.get i urlsafe_alphabet))).
  { intros [? ?]; eauto. }
  do 64 (destruct i as [|i]; [split; [discriminate | reflexivity]|]).
  lia.
Qed.

Lemma sextet_spec (n shift : N) :
  sextet n shift ≠ "="%char ∧ in_alphabet (sextet n shift).
Proof.
  unfold sextet.
  assert (N.land (N.shiftr n shift) 63 < 64)%N as Hlt.
  { change 63%N with (N.ones 6). rewrite N.land_ones.
    change 64%N with (2 ^ 6)%N. by apply N.mod_lt. }
  rewrite <- (N2Nat.id (N.land _ _)). apply pick_below_64. lia.
Qed.

Lemma sextet_not_pad (n shift : N) : sextet n shift ≠ "="%char.
Proof. apply sextet_spec. Qed.

Lemma rstrip_keeps (c a : ascii) (s : string) :
  a ≠ c → rstrip c (String a s) = String a (rstrip c s).
Proof.
  intros Hne. cbn [rstrip]. destruct (rstrip c s); [|done].
  by apply Ascii.eqb_neq in Hne as ->.
Qed.

(** Stripping the padding of Python's encoder gives the unpadded encoding. *)
Lemma rstrip_b64encode (bs : list byte) :
  rstrip "=" (urlsafe_b64encode bs) = base64url_nopad bs.
Proof.
  induction bs as [|a|a b|a b c rest IH] using bytes_by_three;
    cbn [urlsafe_b64encode base64url_nopad];
    rewrite ?rstrip_keeps by apply sextet_not_pad; by rewrite ?IH.
Qed.

(** The unpadded encoding uses the 64 characters of the alphabet only. *)
Lemma nopad_alphabet (bs : list byte) : all_chars in_alphabet (base64url_nopad bs).
Proof.
  induction bs as [|a|a b|a b c rest IH] using bytes_by_three;
    cbn [base64url_nopad all_chars]; repeat split; auto; apply sextet_spec.
Qed.

Lemma nopad_no_padding (bs : list byte) :
  all_chars (λ c, c ≠ "="%char) (base64url_nopad bs).
Proof.
  induction bs as [|a|a b|a b c rest IH] using bytes_by_three;
    cbn [base64url_nopad all_chars]; repeat split; auto; apply sextet_not_pad.
Qed.

(** [n] bytes give [ceil(4n/3)] characters. *)
Lemma nopad_length (bs : list byte) :
  String.length (base64url_nopad bs) = (4 * length bs + 2) / 3.
Proof.
  induction bs as [|a|a b|a b c rest IH] using bytes_by_three;
    cbn [base64url_nopad String.length length]; try reflexivity.
  rewrite IH.
  replace (4 * S (S (S (length rest))) + 2) with ((4 * length rest + 2) + 4 * 3) by lia.
  rewrite Nat.div_add by lia. lia.
Qed.

Lemma nopad_nonempty (b : byte) (bs : list byte) :
  truthy (VStr (base64url_nopad (b :: bs))) = true.
Proof. by destruct bs as [|? [|? ?]]. Qed.

(** *** The encoding loses nothing

    Each character gives back its six bits, each byte of a group sits in
    eight bits of its own, so equal texts come from equal bytes. *)

Lemma unpick_pick (i : nat) :
  (i < 64)%nat → unpick (pick urlsafe_alphabet (N.of_nat i)) = N.of_nat i.
Proof.
  intros Hi. unfold pick. rewrite Nat2N.id.
  do 64 (destruct i as [|i]; [reflexivity|]). lia.
Qed.

Lemma unpick_sextet (n shift : N) :
  unpick (sextet n shift) = N.land (N.shiftr n shift) 63.
Proof.
  unfold sextet.
  assert (N.land (N.shiftr n shift) 63 < 64)%N as Hlt.
  { change 63%N with (N.ones 6). rewrite N.land_ones.
    change 64%N with (2 ^ 6)%N. by apply N.mod_lt. }
  rewrite <- (N2Nat.id (N.land _ _)) at 1. rewrite unpick_pick by lia.
  apply N2Nat.id.
Qed.

Lemma sextet_bits (n m shift i : N) :
  sextet n shift = sextet m shift → (shift <= i < shift + 6)%N →
  N.testbit n i = N.testbit m i.
Proof.
  intros Heq Hi. apply (f_equal unpick) in Heq. rewrite !unpick_sextet in Heq.
  apply (f_equal (λ x, N.testbit x (i - shift))) in Heq.
  rewrite !N.land_spec, !N.shiftr_spec' in Heq.
  change 63%N with (N.ones 6) in Heq.
  rewrite N.ones_spec_low, !andb_true_r in Heq by lia.
  by replace (i - shift + shift)%N with i in Heq by lia.
Qed.

Lemma byte_high_bit (b : byte) (j : N) :
  (8 <= j)%N → N.testbit (Byte.to_N b) j = false.
Proof.
  intros Hj. destruct (N.eq_dec (Byte.to_N b) 0) as [->|Hne]; [apply N.bits_0|].
  apply N.bits_above_log2.
  assert (N.log2 (Byte.to_N b) < 8)%N; [|lia].
  apply N.log2_lt_pow2; [lia|]. pose proof (Byte.to_N_bounded b).
  change (2 ^ 8)%N with 256%N. lia.
Qed.

Lemma group24_bit (a b c : byte) (i : N) :
  N.testbit (group24 a b c) i =
  if (i <? 8)%N then N.testbit (Byte.to_N c) i
  else if (i <? 16)%N then N.testbit (Byte.to_N b) (i - 8)
  else N.testbit (Byte.to_N a) (i - 16).
Proof.
  unfold group24. rewrite !N.lor_spec.
  destruct (N.ltb_spec i 8); [|destruct (N.ltb_spec i 16)].
  - by rewrite !N.shiftl_spec_low by lia.
  - rewrite N.shiftl_spec_low by lia. rewrite N.shiftl_spec_high' by lia.
    rewrite (byte_high_bit c) by lia. by rewrite orb_false_r.
  - rewrite !N.shiftl_spec_high' by lia.
    rewrite (byte_high_bit c), (byte_high_bit b) by lia. by rewrite !orb_false_r.
Qed.

Lemma byte_bits_inj (a b : byte) :
  (∀ j, (j < 8)%N → N.testbit (Byte.to_N a) j = N.testbit (Byte.to_N b) j) → a = b.
Proof.
  intros Hbits.
  assert (Byte.to_N a = Byte.to_N b) as Heq.
  { apply N.bits_inj. intros j. destruct (N.lt_ge_cases j 8); [by apply Hbits|].
    by rewrite !byte_high_bit. }
  pose proof (Byte.of_to_N a) as Ha. rewrite Heq, Byte.of_to_N in Ha.
  by injection Ha.
Qed.

(** Two groups agree on some of their characters; the goal is that they
    agree on one of their bytes, found at [offset] in the group. *)
Ltac same_byte offset :=
  apply byte_bits_inj; intros j Hj;
  lazymatch goal with
  | Hs : sextet ?n _ = sextet ?m _ |- _ =>
      assert (N.testbit n (j + offset) = N.testbit m (j + offset)) as Hbit;
      [ destruct (N.lt_ge_cases (j + offset) 6);
        destruct (N.lt_ge_cases (j + offset) 12);
        destruct (N.lt_ge_cases (j + offset) 18);
        first
          [ exfalso; lia
          | match goal with
            | H : sextet _ ?k = sextet _ ?k |- _ =>
                apply (sextet_bits _ _ k); [exact H | lia]
            end ]
      | rewrite !group24_bit in Hbit;
        repeat match type of Hbit with
        | context [(?u <? ?v)%N] => destruct (N.ltb_spec u v); try lia
        end;
        rewrite ?N.add_0_r, ?N.add_sub in Hbit; exact Hbit ]
  end.

Lemma nopad_inj (bs1 bs2 : list byte) :
  base64url_nopad bs1 = base64url_nopad bs2 → bs1 = bs2.
Proof.
  revert bs2.
  induction bs1 as [|a|a b|a b c rest IH] using bytes_by_three;
    intros [|a' [|b' [|c' rest']]]; cbn [base64url_nopad]; intros Heq;
    try discriminate Heq; try reflexivity.
  - injection Heq as H18 H12. f_equal.
    same_byte 16%N.
  - injection Heq as H18 H12 H6. f_equal; [|f_equal].
    + same_byte 16%N.
    + same_byte 8%N.
  - injection Heq as H18 H12 H6 H0 Hrest.
    rewrite (IH _ Hrest). f_equal; [|f_equal; [|f_equal]].
    + same_byte 16%N.
    + same_byte 8%N.
    + same_byte 0%N.
Qed.

End Base64.

(** ** Rules for running the views symbolically *)

Section Rules.

Context (env : Env).

Lemma wp_ret {A} (a : A) (Q : result A → Prop) w :
  Q (Returns a w) → wp (mret a) Q w.
Proof. done. Qed.

Lemma wp_raise {A} e (Q : result A → Prop) w :
  Q (Raises e w) → wp (raise e) Q w.
Proof. done. Qed.

Lemma wp_bind {A B} (m : M A) (f : A → M B) (Q : result B → Prop) w :
  wp m (λ r, match r with
             | Returns a w' => wp (f a) Q w'
             | Raises e w' => Q (Raises e w')
             end) w →
  wp (m ≫= f) Q w.
Proof. unfold wp, mbind, M_bind. by destruct (m w). Qed.

Lemma wp_try {A} (m : M A) h (Q : result A → Prop) w :
  wp m (λ r, match r with
             | Returns a w' => Q (Returns a w')
             | Raises e w' => wp (h e) Q w'
             end) w →
  wp (try_except m h) Q w.
Proof. unfold wp, try_except. by destruct (m w). Qed.

Lemma wp_if {A} (b : bool) (m1 m2 : M A) (Q : result A → Prop) w :
  (b = true → wp m1 Q w) → (b = false → wp m2 Q w) →
  wp (if b then m1 else m2) Q w.
Proof. destruct b; auto. Qed.

Lemma wp_match_option {A B} (o : option A) (f : A → M B) (g : M B)
    (Q : result B → Prop) w :
  (∀ a, o = Some a → wp (f a) Q w) → (o = None → wp g Q w) →
  wp (match o with Some a => f a | None => g end) Q w.
Proof. destruct o; auto. Qed.

Lemma wp_send r (Q : result Response → Prop) w :
  (∀ resp, net env (history w) r = Responds resp →
           Q (Returns resp (issue r (Responds resp) w))) →
  (∀ e, net env (history w) r = Fails e →
        Q (Raises e (issue r (Fails e) w))) →
  wp (send env r) Q w.
Proof. unfold wp, send, issue. destruct (net env (history w) r); auto. Qed.

Lemma wp_gcp_api method url token tok body (Q : result Response → Prop) w :
  subscript token "access_token" = inl tok →
  wp (send env {| method := method; url := url;
                  headers := gcp_headers tok; body := body |}) Q w →
  wp (gcp_api env method url token body) Q w.
Proof. unfold gcp_api. by intros ->. Qed.

Lemma wp_gcp_api_no_key method url token exc body (Q : result Response → Prop) w :
  subscript token "access_token" = inr exc →
  Q (Raises exc w) →
  wp (gcp_api env method url token body) Q w.
Proof. unfold gcp_api. by intros ->. Qed.

Lemma status_url_world resp w : world_of (status_url resp w) = w.
Proof.
  unfold status_url, json_of_response, mbind, M_bind, mret, M_ret, raise.
  destruct (json resp) as [[members|v|items]|]; try done.
  destruct (json_status resp) as [[status|v|items]|]; try done.
  by destruct (_ !! _).
Qed.

Lemma wp_status_url resp (Q : result value → Prop) w :
  (∀ v, status_url resp w = Returns v w → Q (Returns v w)) →
  (∀ e, status_url resp w = Raises e w → Q (Raises e w)) →
  wp (status_url resp) Q w.
Proof.
  intros H1 H2. unfold wp. pose proof (status_url_world resp w) as Hw.
  destruct (status_url resp w); simpl in Hw; subst; auto.
Qed.

Lemma draw_nothing w : draw 0 w = w.
Proof. destruct w. unfold draw. cbn. by rewrite Nat.add_0_r. Qed.

(** [x or generate()] returns something truthy: [x] itself without drawing
    any randomness, or a fresh value made of [n] random bytes. *)
Lemma wp_project_id v (Q : result value → Prop) w :
  (∀ pid n, truthy pid = true →
            (truthy v = true → pid = v ∧ n = 0) →
            (truthy v = false → n = 3) →
            Q (Returns pid (draw n w))) →
  wp (py_or v (generate_project_name env)) Q w.
Proof.
  intros H. unfold wp, py_or. destruct (truthy v) eqn:Hv.
  - unfold mret, M_ret. rewrite <- (draw_nothing w). by apply H.
  - by apply (H _ 3).
Qed.

Lemma wp_password v (Q : result value → Prop) w :
  (∀ pw n, truthy pw = true →
           (truthy v = true → pw = v ∧ n = 0) →
           (truthy v = false → n = 24) →
           Q (Returns pw (draw n w))) →
  wp (py_or v (generate_password env)) Q w.
Proof.
  intros H. unfold wp, py_or. destruct (truthy v) eqn:Hv.
  - unfold mret, M_ret. rewrite <- (draw_nothing w). by apply H.
  - apply (H _ 24); [|done..].
    rewrite rstrip_b64encode. apply nopad_nonempty.
Qed.

End Rules.

Ltac wp_simpl :=
  lazy beta iota zeta
    delta [setup_file token_file session calls drawn slept history issue
           draw world_of returned].

Ltac wp_step :=
  lazymatch goal with
  | |- wp (try_except (provision _ _ _ _ _ _) _) _ _ => fail
  | |- wp (@mbind _ _ _ _ _ _) _ _ => apply wp_bind
  | |- wp (try_except _ _) _ _ => apply wp_try
  | |- wp (@mret _ _ _ _) _ _ => apply wp_ret
  | |- wp (raise _) _ _ => apply wp_raise
  | |- wp (send _ _) _ _ =>
      apply wp_send; [intros ?resp ?Hnet | intros ?exc ?Hnet]
  | |- wp (gcp_api _ _ _ _ _) _ _ =>
      first [ eapply wp_gcp_api; [eassumption|]
            | eapply wp_gcp_api_no_key; [eassumption|] ]
  | |- wp (py_or _ (generate_project_name _)) _ _ =>
      apply wp_project_id; intros ?pid ?n ?Hpid ?Hkept ?Hfresh
  | |- wp (py_or _ (generate_password _)) _ _ =>
      apply wp_password; intros ?pw ?n ?Hpw ?Hkept ?Hfresh
  | |- wp (if _ then _ else _) _ _ => apply wp_if; intros ?Hb
  | |- wp (match _ with Some _ => _ | None => _ end) _ _ =>
      apply wp_match_option; [intros ?a ?Hm | intros ?Hm]
  | |- wp (for_each _ _) _ _ => cbn [for_each]
  | |- wp (save_setup_state _) _ _ => unfold wp at 1, save_setup_state at 1
  | |- wp (save_token _) _ _ => unfold wp at 1, save_token at 1
  | |- wp (sleep _) _ _ => unfold wp at 1, sleep at 1
  | |- wp get_token _ _ => unfold wp at 1, get_token at 1
  | |- wp get_setup_state _ _ => unfold wp at 1, get_setup_state at 1
  | |- wp (session_get _) _ _ => unfold wp at 1, session_get at 1
  | |- wp (json_of_response _) _ _ => unfold json_of_response at 1
  | |- wp (status_url _) _ _ =>
      apply wp_status_url; [intros ?service_url ?Hurl | intros ?exc ?Hurl]
  | |- wp (update_addon_config _ _) _ _ => unfold update_addon_config at 1
  | |- wp (on_error _) _ _ => unfold on_error at 1
  end; wp_simpl.

Ltac world_fields :=
  cbn [setup_file token_file session calls drawn slept history
       persisted_state persisted_step] in *.

Ltac lookup_solve :=
  repeat first [ rewrite lookup_insert_eq | rewrite lookup_insert_ne by done ].

Ltac run_provision :=
  apply wp_try; unfold provision, after_project;
  repeat wp_step;
  try match goal with
      | |- wp (gcp_api _ _ _ ?token _) _ _ =>
          destruct (subscript token "access_token") eqn:?Htok
      end;
  repeat wp_step.

(** ** What every run of [run_setup] does *)

Lemma advanced_keeps state st k :
  advanced state st → k ≠ "step" → k ≠ "server_url" → st !! k = state !! k.
Proof.
  induction 1; intros; [done|..]; rewrite lookup_insert_ne by done; auto.
Qed.

Lemma advanced_step_in state st :
  advanced state st →
  st !! "step" = state !! "step"
  ∨ ∃ s, st !! "step" = Some (VStr s) ∧ s ∈ later_steps.
Proof.
  induction 1 as [|s st _ _ Hs|v st _ IH]; [by left|right|].
  - exists s. by rewrite lookup_insert_eq.
  - by rewrite lookup_insert_ne.
Qed.

Lemma later_step s : s ∈ later_steps ↔ s ∈ ["creating_project"; "linking_billing"; "enabling_apis"; "deploying"; "complete"].
Proof. done. Qed.

Ltac advanced_solve :=
  repeat first
    [ apply advanced_step; [|apply later_step; by repeat constructor]
    | apply advanced_url
    | apply advanced_none ].

Lemma provision_summary env token state pid pw ba w :
  setup_file w = Some state →
  ∃ reply w' st,
    try_except (provision env token state pid pw ba) on_error w
    = Returns reply w'
    ∧ token_file w' = token_file w ∧ session w' = session w
    ∧ drawn w' = drawn w
    ∧ setup_file w' = Some st ∧ advanced state st
    ∧ (∀ data, reply = Jsonify data 200 →
         st !! "step" = Some (VStr "complete")
         ∧ reply = success_reply pid (get_or st "server_url" (VStr "")) pw).
Proof.
  destruct w as [state0 token0 session0 calls0 drawn0 slept0]. world_fields.
  intros ->.
  pose (Q := λ r : result Reply, ∃ reply w' st,
    r = Returns reply w'
    ∧ token_file w' = token0 ∧ session w' = session0
    ∧ drawn w' = drawn0
    ∧ setup_file w' = Some st ∧ advanced state st
    ∧ (∀ data, reply = Jsonify data 200 →
         st !! "step" = Some (VStr "complete")
         ∧ reply = success_reply pid (get_or st "server_url" (VStr "")) pw)).
  assert (HQ : ∀ reply st c sl,
    advanced state st →
    (∀ data, reply = Jsonify data 200 →
       st !! "step" = Some (VStr "complete")
       ∧ reply = success_reply pid (get_or st "server_url" (VStr "")) pw) →
    Q (Returns reply {| setup_file := Some st; token_file := token0;
                        session := session0; calls := c;
                        drawn := drawn0; slept := sl |})).
  { intros reply st c sl Hadv Hok. eexists _, _, _. split; [reflexivity|]. done. }
  match goal with |- context [try_except ?m ?h ?w] =>
    change (wp (try_except m h) Q w) end.
  clearbody Q.
  run_provision.
  all: apply HQ; [advanced_solve|];
    first [ unfold error_reply; intros data Hreply; discriminate Hreply
          | intros data _; split; [apply lookup_insert_eq | reflexivity] ].
Qed.

Lemma run_setup_unauthenticated env req w :
  truthy_token (token_file w) = false →
  run_setup env req w = Returns (error_reply "Not authenticated" 401) w.
Proof.
  intros Htoken. unfold run_setup, mbind, M_bind, get_token. by rewrite Htoken.
Qed.

Lemma resolve_project_id env v w :
  ∃ pid n, py_or v (generate_project_name env) w = Returns pid (draw n w)
    ∧ truthy pid = true
    ∧ (truthy v = true → pid = v ∧ n = 0) ∧ (truthy v = false → n = 3).
Proof. apply wp_project_id. intros pid n ???. by exists pid, n. Qed.

Lemma resolve_password env v w :
  ∃ pw n, py_or v (generate_password env) w = Returns pw (draw n w)
    ∧ truthy pw = true
    ∧ (truthy v = true → pw = v ∧ n = 0) ∧ (truthy v = false → n = 24).
Proof. apply wp_password. intros pw n ???. by exists pw, n. Qed.

Lemma draw_draw n m w : draw m (draw n w) = draw (n + m) w.
Proof. unfold draw. cbn. by rewrite Nat.add_assoc. Qed.

(** With a token, [run_setup] resolves the two identifiers and reads the
    request body. If that is a JSON object, it saves the identifiers with
    the step [creating_project] and enters its [try] block; if not, it
    raises, having drawn what the identifiers needed and saved nothing. *)
Lemma run_setup_resolves env req w :
  truthy_token (token_file w) = true →
  ∃ pid pw n1 n2,
    run_setup env req w
    = match json_in req with
      | Json (DObject _) =>
          try_except
            (provision env (default (DObject ∅) (token_file w))
               (entered_state w pid pw) pid pw (billing_account_of req))
            on_error (entered_world w pid pw (n1 + n2))
      | Json other => Raises (no_get other) (draw (n1 + n2) w)
      | NoJson exc => Raises exc (draw (n1 + n2) w)
      end
    ∧ truthy pid = true ∧ truthy pw = true
    ∧ (truthy (get (persisted_state w) "project_id") = true →
         pid = get (persisted_state w) "project_id" ∧ n1 = 0)
    ∧ (truthy (get (persisted_state w) "project_id") = false → n1 = 3)
    ∧ (truthy (get (persisted_state w) "password") = true →
         pw = get (persisted_state w) "password" ∧ n2 = 0)
    ∧ (truthy (get (persisted_state w) "password") = false → n2 = 24).
Proof.
  intros Htoken.
  unfold run_setup, mbind, M_bind, get_token, get_setup_state.
  rewrite Htoken. cbn [negb]. fold (persisted_state w).
  destruct (resolve_project_id env (get (persisted_state w) "project_id") w)
    as (pid & n1 & -> & Hpid & Hkept1 & Hfresh1).
  destruct (resolve_password env (get (persisted_state w) "password") (draw n1 w))
    as (pw & n2 & -> & Hpw & Hkept2 & Hfresh2).
  exists pid, pw, n1, n2. split; [|done].
  rewrite draw_draw.
  unfold request_json_get, billing_account_of.
  by destruct (json_in req) as [[members|v|items]|exc].
Qed.

(** A request whose body is a JSON object. *)
Lemma run_setup_enters env req w :
  truthy_token (token_file w) = true →
  object_body req →
  ∃ pid pw n1 n2,
    run_setup env req w
    = try_except
        (provision env (default (DObject ∅) (token_file w)) (entered_state w pid pw)
           pid pw (billing_account_of req))
        on_error (entered_world w pid pw (n1 + n2))
    ∧ truthy pid = true ∧ truthy pw = true
    ∧ (truthy (get (persisted_state w) "project_id") = true →
         pid = get (persisted_state w) "project_id" ∧ n1 = 0)
    ∧ (truthy (get (persisted_state w) "project_id") = false → n1 = 3)
    ∧ (truthy (get (persisted_state w) "password") = true →
         pw = get (persisted_state w) "password" ∧ n2 = 0)
    ∧ (truthy (get (persisted_state w) "password") = false → n2 = 24).
Proof.
  intros Htoken [members Hbody].
  destruct (run_setup_resolves env req w Htoken) as (pid & pw & n1 & n2 & Hrun & H).
  rewrite Hbody in Hrun. by exists pid, pw, n1, n2.
Qed.

(** Any other body: the run raises and only randomness is consumed. *)
Lemma run_setup_raises env req w :
  truthy_token (token_file w) = true →
  ¬ object_body req →
  ∃ exc n1 n2,
    run_setup env req w = Raises exc (draw (n1 + n2) w)
    ∧ (truthy (get (persisted_state w) "project_id") = true → n1 = 0)
    ∧ (truthy (get (persisted_state w) "project_id") = false → n1 = 3)
    ∧ (truthy (get (persisted_state w) "password") = true → n2 = 0)
    ∧ (truthy (get (persisted_state w) "password") = false → n2 = 24).
Proof.
  intros Htoken Hbody.
  destruct (run_setup_resolves env req w Htoken)
    as (pid & pw & n1 & n2 & Hrun & _ & _ & Hk1 & Hf1 & Hk2 & Hf2).
  assert (∃ exc, run_setup env req w = Raises exc (draw (n1 + n2) w)) as [exc Hexc].
  { rewrite Hrun. destruct (json_in req) as [[members|v|items]|exc] eqn:Hj;
      [|by eexists..]. destruct Hbody. by exists members. }
  exists exc, n1, n2. split_and!; [done| |done| |done].
  - intros H. by destruct (Hk1 H).
  - intros H. by destruct (Hk2 H).
Qed.

Lemma object_body_dec req : object_body req ∨ ¬ object_body req.
Proof.
  unfold object_body. destruct (json_in req) as [[members|v|items]|exc];
    [left; by eexists | right; by intros [? [=]]..].
Qed.

(** A run that returns a reply other than the 401 has read a JSON object. *)
Lemma run_setup_returned_body env req w reply w' :
  truthy_token (token_file w) = true →
  run_setup env req w = Returns reply w' → object_body req.
Proof.
  intros Htoken Hrun. destruct (object_body_dec req) as [|Hbody]; [done|].
  destruct (run_setup_raises env req w Htoken Hbody) as (exc & n1 & n2 & Hexc & _).
  rewrite Hexc in Hrun. discriminate Hrun.
Qed.

Lemma run_setup_summary env req w :
  truthy_token (token_file w) = true →
  object_body req →
  ∃ reply w' pid pw n1 n2 st,
    run_setup env req w = Returns reply w'
    ∧ token_file w' = token_file w ∧ session w' = session w
    ∧ drawn w' = drawn w + (n1 + n2)
    ∧ truthy pid = true ∧ truthy pw = true
    ∧ (truthy (get (persisted_state w) "project_id") = true →
         pid = get (persisted_state w) "project_id" ∧ n1 = 0)
    ∧ (truthy (get (persisted_state w) "project_id") = false → n1 = 3)
    ∧ (truthy (get (persisted_state w) "password") = true →
         pw = get (persisted_state w) "password" ∧ n2 = 0)
    ∧ (truthy (get (persisted_state w) "password") = false → n2 = 24)
    ∧ setup_file w' = Some st
    ∧ st !! "project_id" = Some pid ∧ st !! "password" = Some pw
    ∧ (∃ s, st !! "step" = Some (VStr s) ∧ s ∈ later_steps)
    ∧ (∀ data, reply = Jsonify data 200 →
         st !! "step" = Some (VStr "complete")
         ∧ reply = success_reply pid (get_or st "server_url" (VStr "")) pw).
Proof.
  intros Htoken Hbody.
  destruct (run_setup_enters env req w Htoken Hbody)
    as (pid & pw & n1 & n2 & -> & Hpid & Hpw & Hk1 & Hf1 & Hk2 & Hf2).
  destruct (provision_summary env (default (DObject ∅) (token_file w))
              (entered_state w pid pw) pid pw
              (billing_account_of req)
              (entered_world w pid pw (n1 + n2)) eq_refl)
    as (reply & w' & st & Hrun & Htf & Hss & Hdr & Hst & Hadv & Hok).
  exists reply, w', pid, pw, n1, n2, st.
  pose proof (advanced_keeps _ _ "project_id" Hadv) as Hp.
  pose proof (advanced_keeps _ _ "password" Hadv) as Hq.
  rewrite Hp, Hq by done. unfold entered_state. lookup_solve.
  split_and!; try done.
  destruct (advanced_step_in _ _ Hadv) as [Hs|Hs]; [|done].
  rewrite Hs. unfold entered_state. lookup_solve.
  eexists. split; [done|]. apply later_step. by repeat constructor.
Qed.

(** ** [auth_callback] *)

Lemma auth_callback_denied env req w e :
  args req !! "error" = Some e → e ≠ "" →
  auth_callback env req w = Returns (error_page (AuthorizationDenied e)) w.
Proof.
  intros He Hne. unfold auth_callback. rewrite He.
  by destruct e.
Qed.

Lemma auth_callback_missing_code env req w :
  truthy_arg (args req !! "error") = false →
  truthy_arg (args req !! "code") = false →
  auth_callback env req w = Returns (error_page AuthorizationMissingCode) w.
Proof. intros He Hc. unfold auth_callback. by rewrite He, Hc. Qed.

(** Past the two checks, everything depends on the answer to the token
    request. *)
Lemma auth_callback_exchange env req w :
  truthy_arg (args req !! "error") = false →
  truthy_arg (args req !! "code") = true →
  let r := token_request env req w in
  let o := net env (history w) r in
  auth_callback env req w =
    match o with
    | Fails e => Raises e (issue r o w)
    | Responds resp =>
        if negb (status_code resp =? 200)%Z then
          Returns (error_page (TokenExchangeFailed (text resp))) (issue r o w)
        else
          match json resp with
          | None => Raises "Expecting value: line 1 column 1 (char 0)" (issue r o w)
          | Some token =>
              Returns (Redirect (get_ingress_path env +:+ "/") [])
                {| setup_file :=
                     Some (<["step" := VStr "authenticated"]> (persisted_state w));
                   token_file := Some token; session := session w;
                   calls := (r, o) :: calls w;
                   drawn := drawn w; slept := slept w |}
          end
    end.
Proof.
  intros He Hc. unfold auth_callback. rewrite He, Hc. cbn [negb].
  unfold mbind, M_bind, session_get, send. fold (token_request env req w).
  cbv zeta. destruct (net env (history w) (token_request env req w)) as [resp|e];
    [|done].
  destruct (negb (status_code resp =? 200)%Z); [done|].
  unfold json_of_response. by destruct (json resp).
Qed.

Lemma auth_callback_session env req w :
  session (world_of (auth_callback env req w)) = session w.
Proof.
  destruct (truthy_arg (args req !! "error")) eqn:He.
  { unfold auth_callback. by rewrite He. }
  destruct (truthy_arg (args req !! "code")) eqn:Hc.
  2:{ by rewrite auth_callback_missing_code. }
  rewrite auth_callback_exchange by done. cbv zeta.
  destruct (net env _ _) as [resp|e]; [|done].
  destruct (negb _); [done|]. by destruct (json resp).
Qed.

(** [auth_callback] leaves the setup state alone or writes the step
    [authenticated] into it, whatever the step was. *)
Lemma auth_callback_state env req w :
  setup_file (world_of (auth_callback env req w)) = setup_file w
  ∨ setup_file (world_of (auth_callback env req w))
    = Some (<["step" := VStr "authenticated"]> (persisted_state w)).
Proof.
  destruct (truthy_arg (args req !! "error")) eqn:He.
  { left. unfold auth_callback. by rewrite He. }
  destruct (truthy_arg (args req !! "code")) eqn:Hc.
  2:{ left. by rewrite auth_callback_missing_code. }
  rewrite auth_callback_exchange by done. cbv zeta.
  destruct (net env _ _) as [resp|e]; [|by left].
  destruct (negb _); [by left|]. destruct (json resp); [by right|by left].
Qed.

(** ** Documents that are no objects *)

(** A setup request with the body [[1]]: the run raises outside its [try]
    block, having drawn the 27 bytes of both identifiers and saved nothing,
    so the next run draws other identifiers. *)
Example run_setup_array_body :
  run_setup (scenario [] None) array_request authorised_world
  = Raises "'list' object has no attribute 'get'" (draw 27 authorised_world)
  ∧ get (persisted_state
           (world_of (run_setup (scenario [] None) (setup_with VNone)
                        (draw 27 authorised_world)))) "project_id"
    = VStr "ha-tunnel-32577c"
  ∧ get (persisted_state
           (world_of (run_setup (scenario [] None) (setup_with VNone)
                        authorised_world))) "project_id"
    = VStr "ha-tunnel-4b7095".
Proof. split_and!; vm_compute; reflexivity. Qed.

(** A token endpoint that answers 200 with [[1]]: the array is saved as the
    token and the step [authenticated] is written; a later run finds the
    token truthy and fails on [token['access_token']] inside its [try]
    block. *)
Example auth_callback_array_token :
  let w := world_of (auth_callback (scenario [array_answer] None)
                       (callback_with [("code", "4/0Ab")]) initial_world) in
  token_file w = Some (DArray [JNum 1])
  ∧ persisted_step w = VStr "authenticated"
  ∧ returned (get_status w)
    = Some (status_reply true (VStr "authenticated") VNone VNone false)
  ∧ returned (run_setup (scenario [] None) (setup_with VNone) w)
    = Some (error_reply "list indices must be integers or slices, not str" 500).
Proof. split_and!; vm_compute; reflexivity. Qed.

(** ** The claims about [auth_callback] *)

(** C5 (as amended). [auth_callback] fails with [AuthorizationDenied]
    whenever a non-empty [error] parameter is present, whether or not a code
    came with it, and with [AuthorizationMissingCode] whenever there is no
    non-empty [error] and no non-empty [code]. In both cases the world is left
    exactly as it was: no token request is issued and no token is saved. *)
Theorem C5_denied_or_missing_code env req w :
  (∀ e, args req !! "error" = Some e → e ≠ "" →
        auth_callback env req w = Returns (error_page (AuthorizationDenied e)) w)
  ∧ (truthy_arg (args req !! "error") = false →
     truthy_arg (args req !! "code") = false →
     auth_callback env req w = Returns (error_page AuthorizationMissingCode) w).
Proof.
  split; [apply auth_callback_denied | apply auth_callback_missing_code].
Qed.

Lemma C5_denied_or_missing_code_witness :
  auth_callback (scenario [] None)
    (callback_with [("error", "access_denied"); ("code", "4/0Ab")]) initial_world
  = Returns (error_page (AuthorizationDenied "access_denied")) initial_world
  ∧ auth_callback (scenario [] None) (callback_with []) initial_world
    = Returns (error_page AuthorizationMissingCode) initial_world.
Proof.
  split.
  - apply (proj1 (C5_denied_or_missing_code _ _ _)); [reflexivity | discriminate].
  - apply (proj2 (C5_denied_or_missing_code _ _ _)); reflexivity.
Defined.

(** C5, counterexample to the claim as stated. An [error] parameter that is
    present but empty does not stop the callback: the code next to it is
    exchanged, the token is saved and the caller is redirected. *)
Lemma C5_empty_error_is_not_a_denial :
  args empty_error_callback !! "error" = Some ""
  ∧ returned (auth_callback (scenario [token_answer] None)
                empty_error_callback initial_world)
    = Some (Redirect "/" [])
  ∧ length (calls (world_of (auth_callback (scenario [token_answer] None)
                               empty_error_callback initial_world))) = 1
  ∧ subscript (default (DObject ∅) (token_file (world_of
                 (auth_callback (scenario [token_answer] None)
                    empty_error_callback initial_world)))) "access_token"
    = inl (VStr "ya29.a0").
Proof. split_and!; vm_compute; reflexivity. Qed.

(** C9 (as amended). [auth_callback] never touches the session: whatever
    the outcome, the session after the call is the session before it, so a
    stored [code_verifier] is still there. *)
Theorem C9_callback_keeps_the_session env req w :
  session (world_of (auth_callback env req w)) = session w
  ∧ get (session (world_of (auth_callback env req w))) "code_verifier"
    = get (session w) "code_verifier".
Proof. by rewrite auth_callback_session. Qed.

(** C9, counterexample to the claim as stated. After [auth_start] and a
    successful [auth_callback] the verifier is still in the session; after
    a denied callback as well. *)
Lemma C9_verifier_survives_the_callback :
  get (session (world_of (auth_start (scenario [] None) (callback_with [])
                            initial_world))) "code_verifier"
  = VStr "CzBVep_E6Q4zWH2ix-wRNluApcrvFDleg6jN8hc8YYar0PUaP2SJrtP4HUJnjLHW-yBFao-02f4jSG2St9wBJg"
  ∧ get (session authorised_world) "code_verifier"
    = VStr "CzBVep_E6Q4zWH2ix-wRNluApcrvFDleg6jN8hc8YYar0PUaP2SJrtP4HUJnjLHW-yBFao-02f4jSG2St9wBJg"
  ∧ returned (auth_callback (scenario [token_answer] None)
                (callback_with [("code", "4/0Ab")])
                (world_of (auth_start (scenario [] None) (callback_with [])
                             initial_world)))
    = Some (Redirect "/" []).
Proof. split_and!; vm_compute; reflexivity. Qed.

(** ** The order of the steps *)

Lemma step_le_refl a : is_Some (step_rank a) → step_le a a.
Proof. intros [i Hi]. unfold step_le. by rewrite Hi. Qed.

Lemma step_le_trans a b c : step_le a b → step_le b c → step_le a c.
Proof.
  unfold step_le.
  destruct (step_rank a), (step_rank b), (step_rank c); try done. lia.
Qed.

Lemma step_le_ranked a b : step_le a b → is_Some (step_rank a) ∧ is_Some (step_rank b).
Proof. unfold step_le. destruct (step_rank a), (step_rank b); naive_solver. Qed.

Lemma later_steps_after_entry s :
  s ∈ later_steps → step_le (VStr "creating_project") (VStr s).
Proof.
  intros Hs. apply later_step in Hs.
  repeat (apply elem_of_cons in Hs as [->|Hs]; [vm_compute; lia|]).
  by apply elem_of_nil in Hs.
Qed.

Lemma persisted_step_of w st v :
  setup_file w = Some st → st !! "step" = Some v → persisted_step w = v.
Proof.
  intros Hst Hv. unfold persisted_step, persisted_state, get_or.
  by rewrite Hst; cbn; rewrite Hv.
Qed.

(** After either operation the step is what it was, or it is at or after
    the step the operation writes first. *)
Lemma step_after_operation env req op w :
  persisted_step (world_of (perform env req op w)) = persisted_step w
  ∨ step_le (entry_step op) (persisted_step (world_of (perform env req op w))).
Proof.
  destruct op; cbn [perform entry_step].
  - destruct (auth_callback_state env req w) as [Hsame|Hnew].
    + left. unfold persisted_step, persisted_state. by rewrite Hsame.
    + right. erewrite persisted_step_of; [|done|apply lookup_insert_eq].
      vm_compute; lia.
  - destruct (truthy_token (token_file w)) eqn:Htoken.
    + destruct (object_body_dec req) as [Hbody|Hbody].
      * right.
        destruct (run_setup_summary env req w Htoken Hbody)
          as (reply & w' & pid & pw & n1 & n2 & st & -> & _ & _ & _ & _ & _ & _
              & _ & _ & _ & Hst & _ & _ & (s & Hs & Hin) & _).
        cbn [world_of]. erewrite persisted_step_of by done.
        by apply later_steps_after_entry.
      * left.
        by destruct (run_setup_raises env req w Htoken Hbody)
          as (exc & n1 & n2 & -> & _).
    + left. by rewrite run_setup_unauthenticated.
Qed.

(** A callback that ends in the redirect has written [authenticated]. *)
Lemma auth_callback_redirects env req w target query :
  returned (auth_callback env req w) = Some (Redirect target query) →
  persisted_step (world_of (auth_callback env req w)) = VStr "authenticated".
Proof.
  destruct (truthy_arg (args req !! "error")) eqn:He.
  { unfold auth_callback. by rewrite He. }
  destruct (truthy_arg (args req !! "code")) eqn:Hc.
  2:{ by rewrite auth_callback_missing_code. }
  rewrite auth_callback_exchange by done. cbv zeta.
  destruct (net env _ _) as [resp|e]; [|done].
  destruct (negb _); [done|]. destruct (json resp); [|done].
  intros _. cbn [world_of]. eapply persisted_step_of; [done|apply lookup_insert_eq].
Qed.

(** A run that found a token and replied has written a step of its own. *)
Lemma run_setup_replied_step env req w reply :
  truthy_token (token_file w) = true →
  returned (run_setup env req w) = Some reply →
  step_le (VStr "creating_project") (persisted_step (world_of (run_setup env req w))).
Proof.
  intros Htoken Hreply.
  destruct (object_body_dec req) as [Hbody|Hbody].
  - destruct (run_setup_summary env req w Htoken Hbody)
      as (reply' & w' & pid & pw & n1 & n2 & st & -> & _ & _ & _ & _ & _ & _
          & _ & _ & _ & Hst & _ & _ & (s & Hs & Hin) & _).
    cbn [world_of]. erewrite persisted_step_of by done.
    by apply later_steps_after_entry.
  - destruct (run_setup_raises env req w Htoken Hbody) as (exc & n1 & n2 & Hexc & _).
    rewrite Hexc in Hreply. discriminate Hreply.
Qed.

(** ** The claims about the setup state *)

(** C1 (as amended). After [completeAuthorization] and after every
    [runSetup], from any persisted state, the step is either unchanged or at
    or after the operation's entry step ([authenticated], respectively
    [creating_project]); so the step after the operation is at or after the
    step before it whenever the step before it is at or before that entry
    step. A [completeAuthorization] that ends in its redirect has written
    [authenticated] whatever the step was, and a [runSetup] that found a
    token and replied has written [creating_project] or a later step. *)
Theorem C1_step_forward_up_to_entry env req op w :
  let after := persisted_step (world_of (perform env req op w)) in
  (after = persisted_step w ∨ step_le (entry_step op) after)
  ∧ (step_le (persisted_step w) (entry_step op) → step_le (persisted_step w) after)
  ∧ (∀ target query,
       op = CompleteAuthorization →
       returned (perform env req op w) = Some (Redirect target query) →
       after = VStr "authenticated")
  ∧ (∀ reply,
       op = RunSetup → truthy_token (token_file w) = true →
       returned (perform env req op w) = Some reply →
       step_le (VStr "creating_project") after).
Proof.
  intros after. subst after. split_and!.
  - apply step_after_operation.
  - intros Hle. destruct (step_after_operation env req op w) as [->|Hentry].
    + apply step_le_refl. by apply step_le_ranked in Hle as [? _].
    + by eapply step_le_trans.
  - intros target query ->. apply auth_callback_redirects.
  - intros reply ->. apply run_setup_replied_step.
Qed.

Lemma C1_step_forward_up_to_entry_witness :
  step_le (persisted_step authorised_world)
    (persisted_step (world_of (perform (scenario happy_script None)
                                 (setup_with (VStr "billingAccounts/ABC123"))
                                 RunSetup authorised_world)))
  ∧ persisted_step (world_of (perform (scenario (happy_script ++ [token_answer]) None)
                                (callback_with [("code", "4/0Ab")])
                                CompleteAuthorization completed_world))
    = VStr "authenticated".
Proof.
  split.
  - apply (proj1 (proj2 (C1_step_forward_up_to_entry (scenario happy_script None)
             (setup_with (VStr "billingAccounts/ABC123")) RunSetup authorised_world))).
    vm_compute. lia.
  - apply (proj1 (proj2 (proj2 (C1_step_forward_up_to_entry
             (scenario (happy_script ++ [token_answer]) None)
             (callback_with [("code", "4/0Ab")])
             CompleteAuthorization completed_world))) "/" []); [reflexivity|].
    vm_compute; reflexivity.
Defined.

(** C1, counterexample to the claim as stated. The world reached by
    authorising and running the setup to completion has the step
    [complete]; a further [runSetup] that fails at its first call leaves
    the step [creating_project], and a further successful
    [completeAuthorization] leaves [authenticated]: both are earlier steps. *)
Lemma C1_step_moves_back :
  reachable completed_world
  ∧ persisted_step completed_world = VStr "complete"
  ∧ persisted_step (world_of (perform (scenario [] None) (setup_with VNone)
                                RunSetup completed_world))
    = VStr "creating_project"
  ∧ ¬ step_le (VStr "complete") (VStr "creating_project")
  ∧ persisted_step (world_of (perform (scenario (happy_script ++ [token_answer]) None)
                                (callback_with [("code", "4/0Ab")])
                                CompleteAuthorization completed_world))
    = VStr "authenticated"
  ∧ ¬ step_le (VStr "complete") (VStr "authenticated").
Proof.
  split_and!.
  - apply (reachable_perform _ _ RunSetup).
    apply (reachable_perform _ _ CompleteAuthorization).
    apply reachable_auth_start. apply reachable_initial.
  - vm_compute; reflexivity.
  - vm_compute; reflexivity.
  - vm_compute; lia.
  - vm_compute; reflexivity.
  - vm_compute; lia.
Qed.

Lemma run_setup_identifiers env req w :
  truthy_token (token_file w) = true →
  let w' := world_of (run_setup env req w) in
  let before := persisted_state w in
  let after := persisted_state w' in
  truthy_token (token_file w') = true
  ∧ (truthy (get before "project_id") = true →
       get after "project_id" = get before "project_id")
  ∧ (truthy (get before "password") = true →
       get after "password" = get before "password")
  ∧ drawn w' = drawn w
               + (if truthy (get before "project_id") then 0 else 3)
               + (if truthy (get before "password") then 0 else 24)
  ∧ (∀ reply, returned (run_setup env req w) = Some reply →
       truthy (get after "project_id") = true
       ∧ truthy (get after "password") = true
       ∧ ∀ d, reply = Jsonify d 200 →
           d !! "project_id" = Some (get after "project_id")
           ∧ d !! "password" = Some (get after "password")
           ∧ persisted_step w' = VStr "complete")
  ∧ (returned (run_setup env req w) = None → setup_file w' = setup_file w).
Proof.
  intros Htoken.
  assert (∀ n1 n2,
    (truthy (get (persisted_state w) "project_id") = true → n1 = 0) →
    (truthy (get (persisted_state w) "project_id") = false → n1 = 3) →
    (truthy (get (persisted_state w) "password") = true → n2 = 0) →
    (truthy (get (persisted_state w) "password") = false → n2 = 24) →
    drawn w + (n1 + n2)
    = drawn w + (if truthy (get (persisted_state w) "project_id") then 0 else 3)
      + (if truthy (get (persisted_state w) "password") then 0 else 24)) as Hdrawn.
  { intros n1 n2 Hk1 Hf1 Hk2 Hf2.
    destruct (truthy (get (persisted_state w) "project_id"));
      destruct (truthy (get (persisted_state w) "password"));
      rewrite ?(Hk1 eq_refl), ?(Hf1 eq_refl), ?(Hk2 eq_refl), ?(Hf2 eq_refl); lia. }
  destruct (object_body_dec req) as [Hbody|Hbody].
  - destruct (run_setup_summary env req w Htoken Hbody)
      as (reply & w' & pid & pw & n1 & n2 & st & -> & Htf & _ & Hdr & Hpid & Hpw
          & Hk1 & Hf1 & Hk2 & Hf2 & Hst & Hp & Hq & _ & Hok).
    cbn [world_of returned]. cbv zeta.
    assert (get (persisted_state w') "project_id" = pid) as ->.
    { unfold persisted_state, get. by rewrite Hst; cbn; rewrite Hp. }
    assert (get (persisted_state w') "password" = pw) as ->.
    { unfold persisted_state, get. by rewrite Hst; cbn; rewrite Hq. }
    rewrite Htf, Hdr. split_and!; try done.
    + intros H. by apply Hk1.
    + intros H. by apply Hk2.
    + apply Hdrawn; [intros H; by destruct (Hk1 H) | done
                     | intros H; by destruct (Hk2 H) | done].
    + intros reply' [= <-]. split_and!; [done..|].
      intros d ->. destruct (Hok _ eq_refl) as [Hstep [= ->]].
      split_and!; [by lookup_solve..|]. by eapply persisted_step_of.
  - destruct (run_setup_raises env req w Htoken Hbody)
      as (exc & n1 & n2 & -> & Hk1 & Hf1 & Hk2 & Hf2).
    cbn [world_of returned draw token_file drawn setup_file]. cbv zeta.
    split_and!; try done. by apply Hdrawn.
Qed.

(** C2. With a token in place, a non-empty persisted [project_id]
    (respectively [password]) is exactly the one found in the setup state
    after [run_setup], and no random byte is drawn for it: the run draws 3
    bytes only if the project id was missing or empty and 24 only if the
    password was, also when it raises at [request.json], in which case it
    saves nothing. After an invocation that replied, both identifiers are
    persisted and non-empty, so a second invocation, under any environment
    and with any request, keeps the same two values and draws nothing, and a
    successful reply of either invocation reports them. *)
Theorem C2_identifiers_are_reused env1 req1 env2 req2 w :
  truthy_token (token_file w) = true →
  let w1 := world_of (run_setup env1 req1 w) in
  let w2 := world_of (run_setup env2 req2 w1) in
  (truthy (get (persisted_state w) "project_id") = true →
     get (persisted_state w1) "project_id" = get (persisted_state w) "project_id")
  ∧ (truthy (get (persisted_state w) "password") = true →
     get (persisted_state w1) "password" = get (persisted_state w) "password")
  ∧ drawn w1 = drawn w
               + (if truthy (get (persisted_state w) "project_id") then 0 else 3)
               + (if truthy (get (persisted_state w) "password") then 0 else 24)
  ∧ (returned (run_setup env1 req1 w) = None → setup_file w1 = setup_file w)
  ∧ (∀ reply1, returned (run_setup env1 req1 w) = Some reply1 →
       truthy (get (persisted_state w1) "project_id") = true
       ∧ truthy (get (persisted_state w1) "password") = true
       ∧ get (persisted_state w2) "project_id" = get (persisted_state w1) "project_id"
       ∧ get (persisted_state w2) "password" = get (persisted_state w1) "password"
       ∧ drawn w2 = drawn w1
       ∧ (∀ d1, reply1 = Jsonify d1 200 →
            d1 !! "project_id" = Some (get (persisted_state w1) "project_id")
            ∧ d1 !! "password" = Some (get (persisted_state w1) "password"))
       ∧ (∀ d2, returned (run_setup env2 req2 w1) = Some (Jsonify d2 200) →
            d2 !! "project_id" = Some (get (persisted_state w1) "project_id")
            ∧ d2 !! "password" = Some (get (persisted_state w1) "password"))).
Proof.
  intros Htoken w1 w2.
  destruct (run_setup_identifiers env1 req1 w Htoken)
    as (Htoken1 & Hk1 & Hk2 & Hdr1 & Hok1 & Hnone1).
  destruct (run_setup_identifiers env2 req2 w1 Htoken1)
    as (_ & Hk1' & Hk2' & Hdr2 & Hok2 & _).
  fold w1 in Hk1, Hk2, Hdr1, Hok1, Hnone1.
  fold w2 in Hk1', Hk2', Hdr2, Hok2.
  split_and!; try done.
  intros reply1 Hreply1. destruct (Hok1 reply1 Hreply1) as (Hpid1 & Hpw1 & Hd1).
  rewrite Hpid1, Hpw1 in Hdr2.
  split_and!; try done.
  - by apply Hk1'.
  - by apply Hk2'.
  - lia.
  - intros d1 Hd. by destruct (Hd1 d1 Hd) as (? & ? & _).
  - intros d2 Hd2. destruct (Hok2 _ Hd2) as (_ & _ & Hd).
    destruct (Hd d2 eq_refl) as (-> & -> & _).
    by rewrite Hk1', Hk2'.
Qed.

Lemma C2_identifiers_are_reused_witness :
  get (persisted_state (world_of (run_setup (scenario [] None) (setup_with VNone)
                                    completed_world))) "project_id"
  = get (persisted_state completed_world) "project_id"
  ∧ drawn (world_of (run_setup (scenario [] None) (callback_with [])
                       authorised_world))
    = drawn authorised_world + 3 + 24
  ∧ setup_file (world_of (run_setup (scenario [] None) (callback_with [])
                            authorised_world))
    = setup_file authorised_world.
Proof.
  assert (truthy_token (token_file authorised_world) = true) as Htoken
    by (vm_compute; reflexivity).
  split_and!.
  - destruct (C2_identifiers_are_reused (scenario happy_script None)
                (setup_with (VStr "billingAccounts/ABC123"))
                (scenario [] None) (setup_with VNone) authorised_world Htoken)
      as (_ & _ & _ & _ & Hsecond).
    edestruct Hsecond as (_ & _ & Hsame & _); [|exact Hsame].
    vm_compute; reflexivity.
  - destruct (C2_identifiers_are_reused (scenario [] None) (callback_with [])
                (scenario [] None) (setup_with VNone) authorised_world Htoken)
      as (_ & _ & Hdrawn & _).
    exact Hdrawn.
  - destruct (C2_identifiers_are_reused (scenario [] None) (callback_with [])
                (scenario [] None) (setup_with VNone) authorised_world Htoken)
      as (_ & _ & _ & Hnone & _).
    apply Hnone. vm_compute; reflexivity.
Defined.

(** ** The claim about [get_status] *)

Lemma get_status_reply w :
  get_status w
  = Returns (status_reply (token_is_not_None (token_file w))
               (persisted_step w)
               (get (persisted_state w) "project_id")
               (get (persisted_state w) "server_url")
               (is_not_None (get (persisted_state w) "password"))) w.
Proof. reflexivity. Qed.

Lemma truthy_token_is_not_None t :
  truthy_token t = true → token_is_not_None t = true.
Proof. by destruct t as [[members|[]|items]|]. Qed.

(** C10. The reply of [get_status] is the same for two worlds that agree
    on whether a token exists and whose setup states differ only in the
    value of a password that both have; in every world without token file
    and without setup file, whatever else it holds, it reports
    [authenticated = false], the step [start], no project, no server and
    [has_password = false]; and after a run of [run_setup] that replied with
    success it reports [authenticated], the step [complete] and
    [has_password = true]. It never changes the world. *)
Theorem C10_status_shows_no_password :
  (∀ w1 w2,
     token_is_not_None (token_file w1) = token_is_not_None (token_file w2) →
     delete "password" (persisted_state w1) = delete "password" (persisted_state w2) →
     get (persisted_state w1) "password" ≠ VNone →
     get (persisted_state w2) "password" ≠ VNone →
     returned (get_status w1) = returned (get_status w2))
  ∧ (∀ w,
       token_file w = None → setup_file w = None →
       get_status w
       = Returns (status_reply false (VStr "start") VNone VNone false) w)
  ∧ (∀ env req w d,
       returned (run_setup env req w) = Some (Jsonify d 200) →
       ∃ project_id server_url,
         returned (get_status (world_of (run_setup env req w)))
         = Some (status_reply true (VStr "complete") project_id server_url true))
  ∧ (∀ w, world_of (get_status w) = w).
Proof.
  split_and!.
  - intros w1 w2 Htoken Hrest Hp1 Hp2. rewrite !get_status_reply. cbn [returned].
    assert (∀ k, k ≠ "password" →
              persisted_state w1 !! k = persisted_state w2 !! k) as Hsame.
    { intros k Hk.
      rewrite <- (lookup_delete_ne (persisted_state w1) "password" k) by done.
      rewrite <- (lookup_delete_ne (persisted_state w2) "password" k) by done.
      by rewrite Hrest. }
    rewrite Htoken.
    assert (is_not_None (get (persisted_state w1) "password")
            = is_not_None (get (persisted_state w2) "password")) as ->.
    { by destruct (get (persisted_state w1) "password"),
                  (get (persisted_state w2) "password"). }
    unfold persisted_step, get_or, get.
    by rewrite !(Hsame "step"), !(Hsame "project_id"), !(Hsame "server_url").
  - intros w Htoken Hsetup. rewrite get_status_reply.
    unfold persisted_step, persisted_state. by rewrite Htoken, Hsetup.
  - intros env req w d Hd.
    destruct (truthy_token (token_file w)) eqn:Htoken.
    2:{ by rewrite run_setup_unauthenticated in Hd. }
    destruct (run_setup_identifiers env req w Htoken)
      as (Htoken' & _ & _ & _ & Hok & _).
    destruct (Hok _ Hd) as (_ & Hpw & Hsuccess).
    destruct (Hsuccess d eq_refl) as (_ & _ & Hstep).
    rewrite get_status_reply. cbn [returned]. rewrite Hstep.
    rewrite (truthy_token_is_not_None _ Htoken').
    assert (is_not_None (get (persisted_state (world_of (run_setup env req w)))
                           "password") = true) as ->.
    { by destruct (get (persisted_state (world_of (run_setup env req w))) "password"). }
    by eexists _, _.
  - reflexivity.
Qed.

Lemma C10_status_shows_no_password_witness :
  returned (get_status completed_world)
  = returned (get_status
      {| setup_file := Some (<["password" := VStr "another"]>
                               (persisted_state completed_world));
         token_file := token_file completed_world;
         session := ∅; calls := []; drawn := 0; slept := 0 |})
  ∧ returned (get_status (world_of (auth_start (scenario [] None) (callback_with [])
                                      initial_world)))
    = Some (status_reply false (VStr "start") VNone VNone false)
  ∧ ∃ project_id server_url,
      returned (get_status completed_world)
      = Some (status_reply true (VStr "complete") project_id server_url true).
Proof.
  split_and!.
  - apply (proj1 C10_status_shows_no_password).
    + reflexivity.
    + symmetry. exact (delete_insert_eq _ _ _).
    + vm_compute; discriminate.
    + vm_compute; discriminate.
  - rewrite (proj1 (proj2 C10_status_shows_no_password)); reflexivity.
  - apply (proj1 (proj2 (proj2 C10_status_shows_no_password))
             (scenario happy_script None)
             (setup_with (VStr "billingAccounts/ABC123")) authorised_world
             (<["success" := VBool true]>
               (<["project_id" := VStr "ha-tunnel-4b7095"]>
                 (<["server_url" := VStr "https://ha-tunnel-x7-uc.a.run.app"]>
                   (<["password" := VStr "ut8EKU5zmL3iByxRdpvA5QovVHmew-gN"]> ∅))))).
    vm_compute; reflexivity.
Defined.

(** ** The claim about [auth_start] *)

(** C4. [auth_start] draws 64 bytes from [os.urandom]; the verifier it
    stores in the session is their base64url encoding without padding (86
    characters of the URL-safe alphabet, none of them [=]), from which the
    64 bytes can be read back, so the verifier carries all of them; the
    challenge it sends is [base64url_nopad(sha256(verifier))], and the
    method parameter next to it is [S256]. *)
Theorem C4_pkce_pair env req w :
  let random : list byte := urandom env <$> seq (drawn w) 64 in
  let verifier := Codec.base64url_nopad random in
  let challenge := Codec.base64url_nopad (Sha256.sha256 (encode verifier)) in
  auth_start env req w
  = Returns
      (Redirect GOOGLE_AUTH_URL
         [ ("client_id", GOOGLE_CLIENT_ID);
           ("redirect_uri", callback_uri env req);
           ("response_type", "code");
           ("scope", join " " SCOPES);
           ("code_challenge", challenge);
           ("code_challenge_method", "S256");
           ("access_type", "offline");
           ("prompt", "consent") ])
      {| setup_file := setup_file w; token_file := token_file w;
         session := <["code_verifier" := VStr verifier]> (session w);
         calls := calls w; drawn := drawn w + 64; slept := slept w |}
  ∧ length random = 64 ∧ (32 <= length random)%nat
  ∧ String.length verifier = 86
  ∧ all_chars in_alphabet verifier
  ∧ all_chars (λ c, c ≠ "="%char) verifier
  ∧ (∀ other, Codec.base64url_nopad other = verifier → other = random).
Proof.
  intros random verifier challenge. split_and!.
  - unfold auth_start, token_urlsafe, token_bytes, session_set, mbind, M_bind,
      mret, M_ret.
    cbn [setup_file token_file session calls drawn slept].
    rewrite !rstrip_b64encode. reflexivity.
  - unfold random. by rewrite length_fmap, length_seq.
  - unfold random. rewrite length_fmap, length_seq. lia.
  - unfold verifier. rewrite nopad_length. unfold random.
    by rewrite length_fmap, length_seq.
  - apply nopad_alphabet.
  - apply nopad_no_padding.
  - intros other. apply nopad_inj.
Qed.

(** C4 at the first visit of a fresh add-on: bytes that encode to the
    stored verifier are the bytes that were drawn. *)
Lemma C4_pkce_pair_witness :
  ((λ n, counting_bytes (n + 256)) <$> seq 0 64) = (counting_bytes <$> seq 0 64).
Proof.
  apply (proj2 (proj2 (proj2 (proj2 (proj2 (proj2
           (C4_pkce_pair (scenario [] None) (callback_with []) initial_world))))))).
  vm_compute; reflexivity.
Defined.

(** ** The calls of a run *)

(** The calls consed onto a list that is a variable. *)
Ltac prefix_of l :=
  lazymatch l with
  | ?x :: ?l' => let p := prefix_of l' in constr:(x :: p)
  | _ => constr:(@nil (Request * Outcome))
  end.

(** Every property of a run is proved the same way: a postcondition [Q] on
    the final reply, state and added calls, an introduction rule [HQ] for
    it, and one goal per path through [provision]. *)
Ltac close_paths HQ :=
  lazymatch goal with
  | |- ?q (Returns _ (mkWorld _ _ _ ?c _ _)) =>
      let new := prefix_of c in
      apply (HQ _ _ new)
  end.

Ltac status_facts :=
  repeat match goal with
         | H : negb _ = true |- _ => apply negb_true_iff in H
         | H : negb _ = false |- _ => apply negb_false_iff in H
         | H : bool_decide _ = true |- _ => apply bool_decide_eq_true in H
         | H : bool_decide _ = false |- _ => apply bool_decide_eq_false in H
         | H : (_ =? _)%Z = true |- _ => apply Z.eqb_eq in H
         | H : (_ =? _)%Z = false |- _ => apply Z.eqb_neq in H
         end.



(** ** [run_setup] as a whole *)

Lemma run_setup_runs_provision env req w reply w' :
  truthy_token (token_file w) = true →
  run_setup env req w = Returns reply w' →
  ∃ pid pw n,
    try_except
      (provision env (default (DObject ∅) (token_file w)) (entered_state w pid pw)
         pid pw (billing_account_of req))
      on_error (entered_world w pid pw n) = Returns reply w'.
Proof.
  intros Htoken Hrun.
  pose proof (run_setup_returned_body env req w reply w' Htoken Hrun) as Hbody.
  destruct (run_setup_enters env req w Htoken Hbody)
    as (pid & pw & n1 & n2 & Heq & _).
  rewrite Heq in Hrun. by exists pid, pw, (n1 + n2).
Qed.

Lemma no_calls_added {A} (new : list A) (l : list A) : l = (new ++ l)%list → new = [].
Proof.
  intros H. apply (f_equal length) in H. rewrite length_app in H.
  destruct new; [done|]. cbn in H. lia.
Qed.





(** The members of a short list of calls, one by one. *)
Ltac each_call Hin :=
  repeat (apply elem_of_cons in Hin as [Hin|Hin];
          [first [discriminate Hin | injection Hin as -> ->]|]);
  [..|exfalso; exact (proj1 (elem_of_nil _) Hin)].

(** Computes which of the calls of a path are of a kind. *)
Ltac classify :=
  cbn [matching followed is_billing_attach is_service_create is_service_get
       is_service_descriptor is_publisher_call
       method url body fst snd andb orb service_config
       String.eqb Ascii.eqb Bool.eqb String.append
       projects_url billing_info_url enable_url services_url service_url
       set_iam_policy_url get_service_url supervisor_options_url
       supervisor_restart_url].

Lemma elem_of_matching kind cs c :
  c ∈ matching kind cs ↔ c ∈ cs ∧ kind c.1 = true.
Proof.
  induction cs as [|x cs IH]; cbn [matching].
  - split; [by intros ?%elem_of_nil | by intros [?%elem_of_nil _]].
  - destruct (kind x.1) eqn:Hx; rewrite !elem_of_cons, IH.
    + split.
      * intros [->|[? ?]]; [split; [by left|done] | split; [by right|done]].
      * intros [[->|?] ?]; [by left | by right].
    + split.
      * intros [? ?]. split; [by right|done].
      * intros [[->|?] Hk]; [congruence | done].
Qed.

Lemma not_billing_required_error msg status :
  ¬ billing_required (error_reply msg status).
Proof. unfold billing_required, error_reply. by lookup_solve. Qed.

Lemma not_billing_required_success p u q :
  ¬ billing_required (success_reply p u q).
Proof. unfold billing_required, success_reply. by lookup_solve. Qed.

Lemma provision_link_billing env token state pid pw ba w reply w' new :
  setup_file w = Some state →
  try_except (provision env token state pid pw ba) on_error w = Returns reply w' →
  calls w' = (new ++ calls w)%list →
  (∀ r o, (r, o) ∈ matching is_billing_attach new →
     truthy ba = true ∧ url r = billing_info_url pid
     ∧ body r = JsonBody (JObj [("billingAccountName", json_of ba)]))
  ∧ (∀ r resp, (r, Responds resp) ∈ matching is_billing_attach new →
       status_code resp ≠ 200%Z →
       reply = Jsonify
                 (<["error" := VStr ("Failed to link billing: " +:+ text resp)]>
                    (<["billing_required" := VBool true]> ∅)) 400
       ∧ persisted_step w' = VStr "linking_billing"
       ∧ head new = Some (r, Responds resp))
  ∧ (billing_required reply →
       ∃ r resp, head new = Some (r, Responds resp)
                 ∧ is_billing_attach r = true ∧ status_code resp ≠ 200%Z).
Proof.
  destruct w as [state0 token0 session0 calls0 drawn0 slept0]. world_fields.
  intros ->. revert reply w' new.
  pose (P := λ (reply : Reply) (st : dict) (new : list (Request * Outcome)),
    (∀ r o, (r, o) ∈ matching is_billing_attach new →
       truthy ba = true ∧ url r = billing_info_url pid
       ∧ body r = JsonBody (JObj [("billingAccountName", json_of ba)]))
    ∧ (∀ r resp, (r, Responds resp) ∈ matching is_billing_attach new →
         status_code resp ≠ 200%Z →
         reply = Jsonify
                   (<["error" := VStr ("Failed to link billing: " +:+ text resp)]>
                      (<["billing_required" := VBool true]> ∅)) 400
         ∧ st !! "step" = Some (VStr "linking_billing")
         ∧ head new = Some (r, Responds resp))
    ∧ (billing_required reply →
         ∃ r resp, head new = Some (r, Responds resp)
                   ∧ is_billing_attach r = true ∧ status_code resp ≠ 200%Z)).
  pose (Q := λ r : result Reply, ∀ reply w' new,
    r = Returns reply w' → calls w' = (new ++ calls0)%list →
    ∃ st, setup_file w' = Some st ∧ P reply st new).
  assert (HQ : ∀ reply st new sl, P reply st new →
    Q (Returns reply {| setup_file := Some st; token_file := token0;
                        session := session0; calls := (new ++ calls0)%list;
                        drawn := drawn0; slept := sl |})).
  { intros reply st new sl HP reply' w' new' [= <- <-] Hnew.
    cbn [calls] in Hnew. apply app_inv_tail in Hnew as <-. by exists st. }
  enough (wp (try_except (provision env token state pid pw ba) on_error) Q
            {| setup_file := Some state; token_file := token0;
               session := session0; calls := calls0;
               drawn := drawn0; slept := slept0 |}) as Hwp.
  { intros reply w' new Hrun Hcalls.
    destruct (Hwp reply w' new Hrun Hcalls) as (st & Hst & Hattach & Hbad & Hflag).
    split_and!; [done| |done].
    intros r resp Hin Hs. destruct (Hbad r resp Hin Hs) as (? & ? & ?).
    split_and!; [done| |done]. by eapply persisted_step_of. }
  clearbody Q. run_provision.
  all: close_paths HQ; subst P; cbv beta; status_facts; classify.
  all: split_and!.
  all: lazymatch goal with
       | |- ∀ r resp, (r, Responds resp) ∈ _ → _ =>
           intros rq rs Hin Hs; each_call Hin;
           first [ exfalso; apply Hs; assumption
                 | split_and!; first [reflexivity | apply lookup_insert_eq] ]
       | |- ∀ r o, (r, o) ∈ _ → _ =>
           intros rq oc Hin; each_call Hin;
           split_and!; first [assumption | reflexivity]
       | |- billing_required _ → _ =>
           intros Hflag;
           first [ exfalso; exact (not_billing_required_error _ _ Hflag)
                 | exfalso; exact (not_billing_required_success _ _ _ Hflag)
                 | eexists _, _; split_and!;
                   [reflexivity | reflexivity | assumption] ]
       end.
Qed.

(** C6. Among the calls of a run, a billing attach occurs only if a
    (truthy) billing account was supplied, and it carries that account. If
    it is answered with a status other than 200, it is the last call of the
    run, the reply is the error [Failed to link billing: ...] with the flag
    [billing_required] and status 400, and the persisted step is
    [linking_billing]. No other reply of [run_setup] carries the flag. *)
Theorem C6_link_billing env req w reply w' new :
  run_setup env req w = Returns reply w' →
  calls w' = (new ++ calls w)%list →
  (∀ r o, (r, o) ∈ new → is_billing_attach r = true →
     truthy (billing_account_of req) = true
     ∧ body r = JsonBody (JObj [("billingAccountName",
                                 json_of (billing_account_of req))]))
  ∧ (∀ r resp, (r, Responds resp) ∈ new → is_billing_attach r = true →
       status_code resp ≠ 200%Z →
       reply = Jsonify
                 (<["error" := VStr ("Failed to link billing: " +:+ text resp)]>
                    (<["billing_required" := VBool true]> ∅)) 400
       ∧ billing_required reply
       ∧ persisted_step w' = VStr "linking_billing"
       ∧ head new = Some (r, Responds resp))
  ∧ (billing_required reply →
       ∃ r resp, head new = Some (r, Responds resp)
                 ∧ is_billing_attach r = true ∧ status_code resp ≠ 200%Z).
Proof.
  intros Hrun Hcalls.
  destruct (truthy_token (token_file w)) eqn:Htoken.
  - destruct (run_setup_runs_provision env req w reply w' Htoken Hrun)
      as (pid & pw & n & Hprov).
    destruct (provision_link_billing env _ (entered_state w pid pw) pid pw _
                (entered_world w pid pw n) reply w' new eq_refl Hprov Hcalls)
      as (Hattach & Hbad & Hflag).
    split_and!; [| |done].
    + intros r o Hin Hr.
      assert ((r, o) ∈ matching is_billing_attach new) as Hm
        by by apply elem_of_matching.
      by destruct (Hattach r o Hm) as (? & _ & ?).
    + intros r resp Hin Hr Hs.
      assert ((r, Responds resp) ∈ matching is_billing_attach new) as Hm
        by by apply elem_of_matching.
      destruct (Hbad r resp Hm Hs) as (-> & ? & ?).
      split_and!; [done| |done..]. unfold billing_required. by lookup_solve.
  - rewrite run_setup_unauthenticated in Hrun by done.
    injection Hrun as <- <-. apply no_calls_added in Hcalls as ->.
    split_and!.
    + by intros r o ?%elem_of_nil.
    + by intros r resp ?%elem_of_nil.
    + by intros ?%not_billing_required_error.
Qed.

Lemma C6_link_billing_witness :
  returned (run_setup refused_billing (setup_with (VStr "billingAccounts/ABC123"))
              authorised_world)
  = Some (Jsonify
            (<["error" := VStr "Failed to link billing: billing disabled"]>
               (<["billing_required" := VBool true]> ∅)) 400)
  ∧ persisted_step (world_of (run_setup refused_billing
                                (setup_with (VStr "billingAccounts/ABC123"))
                                authorised_world))
    = VStr "linking_billing".
Proof.
  assert (run_setup refused_billing (setup_with (VStr "billingAccounts/ABC123"))
            authorised_world
          = Returns
              (Jsonify
                 (<["error" := VStr "Failed to link billing: billing disabled"]>
                    (<["billing_required" := VBool true]> ∅)) 400)
              (world_of (run_setup refused_billing
                           (setup_with (VStr "billingAccounts/ABC123"))
                           authorised_world))) as Hrun
    by (vm_compute; reflexivity).
  eassert (calls (world_of (run_setup refused_billing
                              (setup_with (VStr "billingAccounts/ABC123"))
                              authorised_world))
           = ([(_, answer 403 "billing disabled");
               (_, answer 409 "ALREADY_EXISTS")] ++ calls authorised_world)%list)
    as Hcalls by (vm_compute; reflexivity).
  destruct (C6_link_billing _ _ _ _ _ _ Hrun Hcalls) as (_ & Hbad & _).
  edestruct Hbad as (_ & _ & Hstep & _).
  { apply elem_of_cons. by left. }
  { vm_compute; reflexivity. }
  { cbn [status_code]. discriminate. }
  split; [by rewrite Hrun | exact Hstep].
Defined.

(** ** The deploy step *)

Ltac each_follower Hin :=
  repeat (apply elem_of_cons in Hin as [Hin|Hin];
          [first [discriminate Hin | injection Hin as -> -> ->]|]);
  [..|exfalso; exact (proj1 (elem_of_nil _) Hin)].

Lemma status_url_any_world resp w v :
  status_url resp w = Returns v w → ∀ w0, status_url resp w0 = Returns v w0.
Proof.
  unfold status_url, json_of_response, mbind, M_bind, mret, M_ret, raise.
  destruct (json resp) as [[members|v'|items]|]; try done.
  destruct (json_status resp) as [[status|v'|items]|]; try done;
    [by intros [= ->]|].
  destruct (_ !! _); [done|by intros [= ->]].
Qed.

Lemma provision_deploy env token state pid pw ba w reply w' new :
  setup_file w = Some state →
  try_except (provision env token state pid pw ba) on_error w = Returns reply w' →
  calls w' = (new ++ calls w)%list →
  (∀ r o nxt, ((r, o), nxt) ∈ followed is_service_create None new →
     body r = JsonBody (service_config pw)
     ∧ ∀ resp, o = Responds resp → status_code resp ∉ [200; 201]%Z →
         ∃ r' o', nxt = Some (r', o') ∧ method r' = "PUT"
                  ∧ url r' = service_url pid ∧ body r' = body r)
  ∧ (∀ data, reply = Jsonify data 200 →
       ∀ r resp, (r, Responds resp) ∈ matching is_service_get new →
         if (status_code resp =? 200)%Z
         then ∃ v, (∀ w0, status_url resp w0 = Returns v w0)
                   ∧ get_or (persisted_state w') "server_url" (VStr "") = v
         else get_or (persisted_state w') "server_url" (VStr "")
              = get_or state "server_url" (VStr "")).
Proof.
  destruct w as [state0 token0 session0 calls0 drawn0 slept0]. world_fields.
  intros ->. revert reply w' new.
  pose (P := λ (reply : Reply) (st : dict) (new : list (Request * Outcome)),
    (∀ r o nxt, ((r, o), nxt) ∈ followed is_service_create None new →
       body r = JsonBody (service_config pw)
       ∧ ∀ resp, o = Responds resp → status_code resp ∉ [200; 201]%Z →
           ∃ r' o', nxt = Some (r', o') ∧ method r' = "PUT"
                    ∧ url r' = service_url pid ∧ body r' = body r)
    ∧ (∀ data, reply = Jsonify data 200 →
         ∀ r resp, (r, Responds resp) ∈ matching is_service_get new →
           if (status_code resp =? 200)%Z
           then ∃ v, (∀ w0, status_url resp w0 = Returns v w0)
                     ∧ get_or st "server_url" (VStr "") = v
           else get_or st "server_url" (VStr "")
                = get_or state "server_url" (VStr ""))).
  pose (Q := λ r : result Reply, ∀ reply w' new,
    r = Returns reply w' → calls w' = (new ++ calls0)%list →
    ∃ st, setup_file w' = Some st ∧ P reply st new).
  assert (HQ : ∀ reply st new sl, P reply st new →
    Q (Returns reply {| setup_file := Some st; token_file := token0;
                        session := session0; calls := (new ++ calls0)%list;
                        drawn := drawn0; slept := sl |})).
  { intros reply st new sl HP reply' w' new' [= <- <-] Hnew.
    cbn [calls] in Hnew. apply app_inv_tail in Hnew as <-. by exists st. }
  enough (wp (try_except (provision env token state pid pw ba) on_error) Q
            {| setup_file := Some state; token_file := token0;
               session := session0; calls := calls0;
               drawn := drawn0; slept := slept0 |}) as Hwp.
  { intros reply w' new Hrun Hcalls.
    destruct (Hwp reply w' new Hrun Hcalls) as (st & Hst & Hput & Hurl).
    split; [done|]. unfold persisted_state. by rewrite Hst. }
  clearbody Q. run_provision.
  all: close_paths HQ; subst P; cbv beta; classify; split.
  all: lazymatch goal with
       | |- ∀ r o nxt, _ ∈ _ → _ =>
           intros rq oc nx Hin; each_follower Hin;
           (split; [reflexivity|]); intros rs Ho Hs;
           first [ discriminate Ho | injection Ho as <- ];
           first [ eexists _, _; split_and!; reflexivity
                 | exfalso; status_facts; apply Hs; assumption ]
       | |- ∀ data, _ = Jsonify data 200 → _ =>
           unfold error_reply; intros data Hreply;
           first [ discriminate Hreply
                 | intros rq rs Hin; each_call Hin;
                   status_facts;
                   match goal with
                   | H : status_code ?x = 200%Z |- context [status_code ?x] =>
                       rewrite H; cbn [Z.eqb Pos.eqb];
                       eexists; split;
                       [ eapply status_url_any_world; eassumption
                       | unfold get_or; by lookup_solve ]
                   | H : status_code ?x ≠ 200%Z |- context [status_code ?x] =>
                       apply Z.eqb_neq in H; rewrite H;
                       unfold get_or; by lookup_solve
                   end ]
       end.
Qed.

Lemma entered_server_url w pid pw :
  get_or (entered_state w pid pw) "server_url" (VStr "")
  = get_or (persisted_state w) "server_url" (VStr "").
Proof. unfold entered_state, get_or. by lookup_solve. Qed.

(** C7 (as amended). If the service-create call of a run is answered with
    a status other than 200 and 201 (409, already exists, among them), the
    call made right after it is a [PUT] to the service with the same body,
    the service descriptor. Whenever the run then replies with success, the
    persisted step is [complete] and the reported [server_url] is the
    persisted one, or the empty string if there is none: the [status.url]
    of the service-get response when that call was answered with 200, and
    otherwise what was persisted before the run. *)
Theorem C7_deploy_falls_back_to_update env req w reply w' new :
  run_setup env req w = Returns reply w' →
  calls w' = (new ++ calls w)%list →
  (∀ r o nxt, ((r, o), nxt) ∈ followed is_service_create None new →
     ∀ resp, o = Responds resp → status_code resp ∉ [200; 201]%Z →
       ∃ r' o', nxt = Some (r', o') ∧ method r' = "PUT"
                ∧ url r' = service_url (get (persisted_state w') "project_id")
                ∧ is_service_descriptor (body r') = true
                ∧ body r' = body r)
  ∧ (∀ data, reply = Jsonify data 200 →
       persisted_step w' = VStr "complete"
       ∧ data !! "server_url"
         = Some (get_or (persisted_state w') "server_url" (VStr ""))
       ∧ ∀ r resp, (r, Responds resp) ∈ new → is_service_get r = true →
           if (status_code resp =? 200)%Z
           then ∃ v, (∀ w0, status_url resp w0 = Returns v w0)
                     ∧ data !! "server_url" = Some v
           else data !! "server_url"
                = Some (get_or (persisted_state w) "server_url" (VStr ""))).
Proof.
  intros Hrun Hcalls.
  destruct (truthy_token (token_file w)) eqn:Htoken.
  - destruct (run_setup_runs_provision env req w reply w' Htoken Hrun)
      as (pid & pw & n & Hprov).
    destruct (provision_deploy env _ (entered_state w pid pw) pid pw _
                (entered_world w pid pw n) reply w' new eq_refl Hprov Hcalls)
      as (Hput & Hurl).
    destruct (provision_summary env (default (DObject ∅) (token_file w))
                (entered_state w pid pw) pid pw
                (billing_account_of req)
                (entered_world w pid pw n) eq_refl)
      as (reply' & w'' & st & Hrun' & _ & _ & _ & Hst & Hadv & Hok).
    rewrite Hprov in Hrun'. injection Hrun' as <- <-.
    assert (get (persisted_state w') "project_id" = pid) as Hpid.
    { pose proof (advanced_keeps _ _ "project_id" Hadv) as Hkeep.
      unfold persisted_state, get. rewrite Hst. cbn [default from_option id].
      rewrite Hkeep by done. unfold entered_state. by lookup_solve. }
    split.
    + intros r o nxt Hin resp Ho Hs.
      destruct (Hput r o nxt Hin) as (Hbody & Hnext).
      destruct (Hnext resp Ho Hs) as (r' & o' & -> & Hm & Hu & Hb).
      exists r', o'. rewrite Hpid. split_and!; try done.
      by rewrite Hb, Hbody.
    + intros data ->. destruct (Hok data eq_refl) as (Hstep & [= ->]).
      assert (get_or (persisted_state w') "server_url" (VStr "")
              = get_or st "server_url" (VStr "")) as Hsame.
      { unfold persisted_state. by rewrite Hst. }
      split_and!.
      * by eapply persisted_step_of.
      * rewrite Hsame. by lookup_solve.
      * intros r resp Hin Hr.
        assert ((r, Responds resp) ∈ matching is_service_get new) as Hm
          by by apply elem_of_matching.
        pose proof (Hurl _ eq_refl r resp Hm) as Hcase.
        rewrite entered_server_url in Hcase.
        destruct (status_code resp =? 200)%Z.
        -- destruct Hcase as (v & Hv & Heq). exists v. split; [done|].
           rewrite <- Heq, Hsame. by lookup_solve.
        -- rewrite <- Hcase, Hsame. by lookup_solve.
  - rewrite run_setup_unauthenticated in Hrun by done.
    injection Hrun as <- <-. apply no_calls_added in Hcalls as ->.
    split.
    + by intros r o nxt ?%elem_of_nil.
    + unfold error_reply. intros data Hd. discriminate Hd.
Qed.

Lemma C7_deploy_falls_back_to_update_witness :
  persisted_step (world_of happy_run) = VStr "complete"
  ∧ ∃ r r' o', take 1 (drop 3 (calls (world_of happy_run)))
               = [(r, answer 409 "ALREADY_EXISTS")]
      ∧ take 1 (drop 2 (calls (world_of happy_run))) = [(r', o')]
      ∧ method r' = "PUT" ∧ body r' = body r.
Proof.
  assert (happy_run
          = Returns
              (success_reply (VStr "ha-tunnel-4b7095")
                 (VStr "https://ha-tunnel-x7-uc.a.run.app")
                 (VStr "ut8EKU5zmL3iByxRdpvA5QovVHmew-gN"))
              (world_of happy_run)) as Hrun
    by (vm_compute; reflexivity).
  eassert (calls (world_of happy_run)
           = ([(_, service_answer "https://ha-tunnel-x7-uc.a.run.app");
               (_, answer 200 "{}"); (_, answer 200 "{}");
               (_, answer 409 "ALREADY_EXISTS");
               (_, answer 200 "{}"); (_, answer 200 "{}");
               (_, answer 200 "{}"); (_, answer 200 "{}")]
              ++ calls authorised_world)%list)
    as Hcalls by (vm_compute; reflexivity).
  destruct (C7_deploy_falls_back_to_update _ _ _ _ _ _ Hrun Hcalls)
    as (Hput & Hok).
  destruct (Hok _ eq_refl) as (Hstep & _).
  split; [exact Hstep|].
  edestruct Hput as (r' & o' & Hnext & Hm & _ & _ & Hbody).
  { vm_compute. apply list_elem_of_here. }
  { reflexivity. }
  { cbn [status_code]. intros Hin.
    repeat (apply elem_of_cons in Hin as [Hin|Hin]; [discriminate Hin|]).
    by apply elem_of_nil in Hin. }
  injection Hnext as <- <-.
  eexists _, _, _. rewrite Hcalls. split_and!; [reflexivity..|exact Hm|exact Hbody].
Defined.

(** C7, counterexample to the claim as stated. The service-create call is
    answered with 409 and followed by the update, the service-get call is
    answered with 404, and the run succeeds with the step [complete] and an
    empty [server_url]. *)
Lemma C7_success_with_empty_server_url :
  returned run_without_url
  = Some (success_reply (VStr "ha-tunnel-4b7095") (VStr "")
            (VStr "ut8EKU5zmL3iByxRdpvA5QovVHmew-gN"))
  ∧ outline (take 4 (calls (world_of run_without_url)))
    = [("GET", Some 404%Z); ("POST", Some 200%Z);
       ("PUT", Some 200%Z); ("POST", Some 409%Z)]
  ∧ is_service_create <$> ((take 4 (calls (world_of run_without_url))).*1)
    = [false; false; false; true]
  ∧ persisted_step (world_of run_without_url) = VStr "complete".
Proof. split_and!; vm_compute; reflexivity. Qed.

(** ** The configuration publisher *)

Lemma provision_publish env token state pid pw ba w reply w' new :
  setup_file w = Some state →
  state !! "step" = Some (VStr "creating_project") →
  try_except (provision env token state pid pw ba) on_error w = Returns reply w' →
  calls w' = (new ++ calls w)%list →
  (matching is_publisher_call new ≠ [] → persisted_step w' = VStr "complete")
  ∧ (persisted_step w' = VStr "complete" →
       match head (matching is_publisher_call new) with
       | Some (_, Fails e) => reply = error_reply e 500
       | _ => reply = success_reply pid
                        (get_or (persisted_state w') "server_url" (VStr "")) pw
       end).
Proof.
  destruct w as [state0 token0 session0 calls0 drawn0 slept0]. world_fields.
  intros -> Hstep. revert reply w' new.
  pose (P := λ (reply : Reply) (st : dict) (new : list (Request * Outcome)),
    (matching is_publisher_call new ≠ [] → st !! "step" = Some (VStr "complete"))
    ∧ (st !! "step" = Some (VStr "complete") →
         match head (matching is_publisher_call new) with
         | Some (_, Fails e) => reply = error_reply e 500
         | _ => reply = success_reply pid (get_or st "server_url" (VStr "")) pw
         end)).
  pose (Q := λ r : result Reply, ∀ reply w' new,
    r = Returns reply w' → calls w' = (new ++ calls0)%list →
    ∃ st, setup_file w' = Some st ∧ P reply st new).
  assert (HQ : ∀ reply st new sl, P reply st new →
    Q (Returns reply {| setup_file := Some st; token_file := token0;
                        session := session0; calls := (new ++ calls0)%list;
                        drawn := drawn0; slept := sl |})).
  { intros reply st new sl HP reply' w' new' [= <- <-] Hnew.
    cbn [calls] in Hnew. apply app_inv_tail in Hnew as <-. by exists st. }
  enough (wp (try_except (provision env token state pid pw ba) on_error) Q
            {| setup_file := Some state; token_file := token0;
               session := session0; calls := calls0;
               drawn := drawn0; slept := slept0 |}) as Hwp.
  { intros reply w' new Hrun Hcalls.
    destruct (Hwp reply w' new Hrun Hcalls) as (st & Hst & Hsome & Hdone).
    assert (persisted_state w' = st) as Hpst
      by (unfold persisted_state; by rewrite Hst).
    split.
    - intros Hne. eapply persisted_step_of; [done|]. by apply Hsome.
    - intros Hc. rewrite Hpst. apply Hdone.
      unfold persisted_step, get_or in Hc. rewrite Hpst in Hc.
      destruct (st !! "step") as [v|]; cbn in Hc; [by subst|discriminate Hc]. }
  clearbody Q. run_provision.
  all: close_paths HQ; subst P; cbv beta; classify; cbn [head]; split.
  all: lazymatch goal with
       | |- _ ≠ [] → _ =>
           intros Hne;
           first [ exfalso; exact (Hne eq_refl) | apply lookup_insert_eq ]
       | |- _ = Some (VStr "complete") → _ =>
           intros Hc;
           first [ rewrite lookup_insert_eq in Hc; discriminate Hc
                 | rewrite Hstep in Hc; discriminate Hc
                 | reflexivity ]
       end.
Qed.

(** C8 (as amended). In a run with a token, a publisher call is made only
    once the step is persisted as [complete], and the step stays
    [complete] whatever the publisher does. Once the step is [complete],
    the reply is the success result with the persisted [project_id],
    [server_url] and [password] when no publisher call was made or when the
    last one was answered, with any status; when the last publisher call
    raised, the reply is the error 500 that carries the exception. *)
Theorem C8_publisher_after_complete env req w reply w' new :
  truthy_token (token_file w) = true →
  run_setup env req w = Returns reply w' →
  calls w' = (new ++ calls w)%list →
  (matching is_publisher_call new ≠ [] → persisted_step w' = VStr "complete")
  ∧ (persisted_step w' = VStr "complete" →
       match head (matching is_publisher_call new) with
       | Some (_, Fails e) => reply = error_reply e 500
       | _ => reply = success_reply
                        (get (persisted_state w') "project_id")
                        (get_or (persisted_state w') "server_url" (VStr ""))
                        (get (persisted_state w') "password")
       end).
Proof.
  intros Htoken Hrun Hcalls.
  destruct (run_setup_runs_provision env req w reply w' Htoken Hrun)
    as (pid & pw & n & Hprov).
  destruct (provision_summary env (default (DObject ∅) (token_file w))
              (entered_state w pid pw) pid pw
              (billing_account_of req)
              (entered_world w pid pw n) eq_refl)
    as (reply' & w'' & st & Hrun' & _ & _ & _ & Hst & Hadv & _).
  rewrite Hprov in Hrun'. injection Hrun' as <- <-.
  assert (get (persisted_state w') "project_id" = pid) as ->.
  { pose proof (advanced_keeps _ _ "project_id" Hadv) as Hkeep.
    unfold persisted_state, get. rewrite Hst. cbn [default from_option id].
    rewrite Hkeep by done. unfold entered_state. by lookup_solve. }
  assert (get (persisted_state w') "password" = pw) as ->.
  { pose proof (advanced_keeps _ _ "password" Hadv) as Hkeep.
    unfold persisted_state, get. rewrite Hst. cbn [default from_option id].
    rewrite Hkeep by done. unfold entered_state. by lookup_solve. }
  apply (provision_publish env (default (DObject ∅) (token_file w))
           (entered_state w pid pw) pid pw
           (billing_account_of req)
           (entered_world w pid pw n) reply w' new eq_refl);
    [apply lookup_insert_eq | exact Hprov | exact Hcalls].
Qed.

Lemma C8_publisher_after_complete_witness :
  persisted_step (world_of run_with_refusing_supervisor) = VStr "complete"
  ∧ returned run_with_refusing_supervisor
    = Some (success_reply
              (get (persisted_state (world_of run_with_refusing_supervisor))
                 "project_id")
              (get_or (persisted_state (world_of run_with_refusing_supervisor))
                 "server_url" (VStr ""))
              (get (persisted_state (world_of run_with_refusing_supervisor))
                 "password")).
Proof.
  assert (truthy_token (token_file authorised_world) = true) as Htoken
    by (vm_compute; reflexivity).
  assert (run_with_refusing_supervisor
          = Returns
              (success_reply (VStr "ha-tunnel-4b7095")
                 (VStr "https://ha-tunnel-x7-uc.a.run.app")
                 (VStr "ut8EKU5zmL3iByxRdpvA5QovVHmew-gN"))
              (world_of run_with_refusing_supervisor)) as Hrun
    by (vm_compute; reflexivity).
  eassert (calls (world_of run_with_refusing_supervisor)
           = ([(_, answer 400 "invalid options");
               (_, service_answer "https://ha-tunnel-x7-uc.a.run.app");
               (_, answer 200 "{}"); (_, answer 200 "{}");
               (_, answer 409 "ALREADY_EXISTS");
               (_, answer 200 "{}"); (_, answer 200 "{}");
               (_, answer 200 "{}"); (_, answer 200 "{}")]
              ++ calls authorised_world)%list)
    as Hcalls by (vm_compute; reflexivity).
  destruct (C8_publisher_after_complete refusing_supervisor billing_request
              authorised_world _ _ _ Htoken Hrun Hcalls)
    as (Hsome & Hdone).
  assert (persisted_step (world_of run_with_refusing_supervisor) = VStr "complete")
    as Hstep.
  { apply Hsome. vm_compute. discriminate. }
  split; [exact Hstep|].
  specialize (Hdone Hstep).
  cbn [head matching is_publisher_call url fst snd orb String.eqb Ascii.eqb
       Bool.eqb supervisor_options_url supervisor_restart_url answer] in Hdone.
  rewrite Hrun at 1. exact (f_equal Some Hdone).
Defined.

(** C8, counterexample to the claim as stated. With a supervisor token set
    and a supervisor that cannot be reached, the run persists the step
    [complete], the publisher call raises, and the caller receives the
    error 500 instead of the success result. *)
Lemma C8_unreachable_publisher_fails_the_run :
  returned run_with_unreachable_supervisor
  = Some (error_reply "Connection refused" 500)
  ∧ persisted_step (world_of run_with_unreachable_supervisor) = VStr "complete"
  ∧ outline (take 2 (calls (world_of run_with_unreachable_supervisor)))
    = [("POST", None); ("GET", Some 200%Z)]
  ∧ is_publisher_call <$> (take 2 (calls (world_of run_with_unreachable_supervisor))).*1
    = [true; false].
Proof. split_and!; vm_compute; reflexivity. Qed.
